(** * Weekly sales forecasting: the data pipeline of [app.py] and [sales.py]

    A shallow embedding of the two entry points of the repository,
    [generate_forecast] (app.py, Streamlit) and [run_forecast] (sales.py,
    Tkinter), together with the pandas operations they are written with.

    Conventions of the embedding.
    - A date is the number of days since 1970-01-01 (a Thursday), so the
      Sundays are the days congruent to 3 modulo 7.
    - The Weekly_Sales column has the dtype [read_csv] infers for it:
      float64, or int64 when the file holds integers only.  The development
      is parametric in the arithmetic of the column (class [Column]); the two
      dtypes are its instances [float64] (IEEE binary64, with NaN, the
      infinities and rounding) and [int64_column] (64-bit two's complement,
      which wraps silently).  Sums are pandas' compensated (Kahan) group sums.
    - A pandas Series indexed by date is a list of (date, value) pairs in
      index order; a DataFrame is a list of rows.
    - Message boxes, plots and the returned tuple are explicit result values;
      so are the combo boxes of sales.py and the page app.py renders.
    - The Holt-Winters fit of statsmodels is a parameter [hw_fit] of both
      pipelines; its forecast step is modelled from the specification. *)

From Stdlib Require Import String Ascii DecimalString DecimalPos.
From Stdlib Require Import ZArith QArith Qround List Bool Lia Permutation Sorted.
From Stdlib Require Import Eqdep_dec.
From Stdlib Require Floats.
Import ListNotations.
Local Open Scope Z_scope.

(** ** The arithmetic of a numeric column *)

(** What the sums of a column use: its zero, addition and subtraction, and
    the test for a missing value (NaN).  Zero is never missing. *)
Class Column (num : Type) : Type := mkColumn
  { num_zero : num;
    num_add : num -> num -> num;
    num_sub : num -> num -> num;
    isna : num -> bool;
    zero_is_number : isna num_zero = false }.

(** *** float64 *)

Definition float := PrimFloat.float.

Definition float64 : Column float :=
  mkColumn float PrimFloat.zero PrimFloat.add PrimFloat.sub PrimFloat.is_nan
    eq_refl.

(** The float64 nearest to an integer of magnitude below 2^63 (the integer
    itself up to 2^53). *)
Definition float_of_Z (z : Z) : float :=
  if z <? 0 then PrimFloat.opp (PrimFloat.of_uint63 (Uint63.of_Z (- z)))
  else PrimFloat.of_uint63 (Uint63.of_Z z).

(** The rational a finite float64 stands for. *)
Definition float_value (f : float) : option Q :=
  match FloatOps.Prim2SF f with
  | SpecFloat.S754_zero _ => Some 0%Q
  | SpecFloat.S754_finite s m e =>
      Some (Qred ((if s then - inject_Z (Zpos m) else inject_Z (Zpos m))
                  * Qpower 2 e))
  | _ => None
  end.

(** *** int64 *)

Definition in_int64 (z : Z) : bool := (- 2 ^ 63 <=? z) && (z <? 2 ^ 63).

(** The value a 64-bit two's complement register holds after receiving [z]. *)
Definition wrap64 (z : Z) : Z := (z + 2 ^ 63) mod 2 ^ 64 - 2 ^ 63.

Record int64 := mkInt64 { signed : Z; in_range : in_int64 signed = true }.

Lemma wrap64_in_range (z : Z) : in_int64 (wrap64 z) = true.
Proof.
  unfold in_int64, wrap64.
  pose proof (Z.mod_pos_bound (z + 2 ^ 63) (2 ^ 64) eq_refl).
  apply andb_true_iff. split; [apply Z.leb_le | apply Z.ltb_lt]; lia.
Qed.

Definition int64_of_Z (z : Z) : int64 := mkInt64 (wrap64 z) (wrap64_in_range z).

Definition int64_column : Column int64 :=
  mkColumn int64 (int64_of_Z 0)
    (fun a b => int64_of_Z (signed a + signed b))
    (fun a b => int64_of_Z (signed a - signed b))
    (fun _ => false) eq_refl.

Definition int64_value (i : int64) : option Q := Some (inject_Z (signed i)).

(** ** Raw tables (train.csv, features.csv, stores.csv) *)

Module Train.
Record t (num : Type) := mk
  { Store : Z; Dept : Z; Date : Z; Weekly_Sales : num; IsHoliday : bool }.
Arguments mk {num}.
Arguments Store {num}.
Arguments Dept {num}.
Arguments Date {num}.
Arguments Weekly_Sales {num}.
Arguments IsHoliday {num}.
End Train.

(** [cols]: Temperature, Fuel_Price, MarkDown1..5, CPI, Unemployment, float
    columns in which a missing field is NaN. *)
Module Features.
Record t := mk
  { Store : Z; Date : Z; IsHoliday : bool; cols : list float }.
End Features.

Module Stores.
Record t := mk { Store : Z; Type_ : string; Size : Z }.
End Stores.

(** ** pandas primitives that do not look at the values *)

(** [left.merge(right, on=..., how="left")]: rows in the order of [left]; a
    left row with several matches is repeated once per match, in the order of
    [right]; a left row without a match is kept once, with [None]. *)
Definition merge_left {L R A : Type} (on : L -> R -> bool)
    (out : L -> option R -> A) (left : list L) (right : list R) : list A :=
  flat_map (fun l =>
    match filter (on l) right with
    | [] => [out l None]
    | ms => map (fun r => out l (Some r)) ms
    end) left.

Fixpoint insert_by {A : Type} (leb : A -> A -> bool) (x : A) (l : list A)
    : list A :=
  match l with
  | [] => [x]
  | y :: l' => if leb x y then x :: y :: l' else y :: insert_by leb x l'
  end.

(** [df.sort_values(keys)]: ascending.  Ties are kept in their original
    order here; pandas promises that order only for some of its sorting
    algorithms, so what is stated below about a sorted frame uses only that
    it is a sorted rearrangement of the input. *)
Definition sort_values {A : Type} (leb : A -> A -> bool) (l : list A)
    : list A :=
  fold_right (insert_by leb) [] l.

(** The Sunday on or after day [d]: the label of the ["W"] (W-SUN) bucket
    that holds [d]; the bucket runs from Monday to that Sunday. *)
Definition week_end (d : Z) : Z := d + (3 - d) mod 7.

Definition list_min (l : list Z) : Z :=
  match l with [] => 0 | x :: l' => fold_right Z.min x l' end.

Definition list_max (l : list Z) : Z :=
  match l with [] => 0 | x :: l' => fold_right Z.max x l' end.

(** The distinct values of [l] in ascending order (the group keys of a
    [groupby], which sorts them). *)
Definition unique_sorted (l : list Z) : list Z :=
  fold_right (fun d acc =>
    if existsb (Z.eqb d) acc then acc else insert_by Z.leb d acc) [] l.

Definition empty {A : Type} (l : list A) : bool :=
  match l with [] => true | _ :: _ => false end.

Definition len {A : Type} (l : list A) : Z := Z.of_nat (length l).

(** The text of a raised exception. *)
Definition exn := string.

(** ** The Holt-Winters engine (statsmodels): what does not depend on the
    column *)

(** The arguments both callers pass: [trend="add"] and [seasonal="add"]
    always; [smoothing] holds (smoothing_level, smoothing_trend,
    smoothing_seasonal) when [fit] is called with [optimized=False], and is
    [None] for a plain [fit()]. *)
Record HWConfig := mkConfig
  { damped_trend : bool; hw_seasonal_periods : Z;
    smoothing : option (Q * Q * Q) }.

(** The fitted state: final level, trend, seasonal indices by phase, and the
    damping factor (1 when the trend is not damped). *)
Record HWParams := mkParams
  { level : Q; trend : Q; season : list Q; phi : Q }.

Definition Forecast := list (Z * Q).

Definition damping_sum (ph : Q) (k : nat) : Q :=
  fold_right Qplus 0%Q (map (fun i => Qpower ph (Z.of_nat i)) (seq 1 k)).

(** The status message of [generate_forecast], one constructor per f-string
    of the function, with the values it interpolates. *)
Inductive message :=
| MsgNoData (store_id dept_id : Z)
| MsgInsufficient (have need_at_least seasonal_periods : Z)
| MsgSuccess (future_periods store_id dept_id : Z)
| MsgFitError (e : exn).

Definition show (z : Z) : string := NilZero.string_of_int (Z.to_int z).

Definition message_text (msg : message) : string :=
  match msg with
  | MsgNoData s d =>
      "No data for Store " ++ show s ++ ", Dept " ++ show d ++ "."
  | MsgInsufficient have need m =>
      "Insufficient data after resampling. Have " ++ show have
      ++ " weekly points; need at least " ++ show need
      ++ " for the chosen seasonal_periods=" ++ show m ++ "."
  | MsgSuccess h s d =>
      "Successfully generated a " ++ show h ++ "-week forecast for Store "
      ++ show s ++ ", Dept " ++ show d ++ "."
  | MsgFitError e => "An error occurred during model fitting: " ++ e
  end%string.

Definition newline : string := String (ascii_of_nat 10) EmptyString.

(** ** The error kinds of the specification (section 7) *)

Inductive ErrorKind :=
| DataUnavailable | NoDataForKey | InsufficientData | ModelFitError
| InvalidParameter.

(** The kind each failure message of [generate_forecast] stands for. *)
Definition kind_of_message (msg : message) : option ErrorKind :=
  match msg with
  | MsgNoData _ _ => Some NoDataForKey
  | MsgInsufficient _ _ _ => Some InsufficientData
  | MsgFitError _ => Some ModelFitError
  | MsgSuccess _ _ _ => None
  end.

(** The minimum series length of the specification. *)
Definition min_points (m : Z) : Z := Z.max (2 * m) (m + 5).

(** Dates one week apart, each. *)
Definition weekly_spaced (dates : list Z) : Prop :=
  forall i, (S i < length dates)%nat ->
            nth (S i) dates 0 = nth i dates 0 + 7.

(** The widget values of a request that passes the input checks of
    sales.py 51-68 up to the horizon: both selections made and numeric, the
    horizon numeric. *)
Definition request (py_int : string -> option Z)
    (store_val dept_val weeks_val : string) (s d h : Z) : Prop :=
  store_val <> ""%string /\ dept_val <> ""%string
  /\ py_int store_val = Some s /\ py_int dept_val = Some d
  /\ py_int weeks_val = Some h.

(** The join keys of a feature row. *)
Definition feature_key (f : Features.t) : Z * Z * bool :=
  (Features.Store f, Features.Date f, Features.IsHoliday f).

(** [Series.unique()]: the distinct values in the order of their first
    appearance. *)
Fixpoint unique (l : list Z) : list Z :=
  match l with
  | [] => []
  | x :: l' => x :: filter (fun y => negb (y =? x)) (unique l')
  end.

(** Python's [sorted] on a list of integers. *)
Definition sorted (l : list Z) : list Z := sort_values Z.leb l.

(** A read-only combo box: the values it offers and the text it shows
    ([get()] returns the text; a value is shown as Python's [str] of it). *)
Record Combobox := mkCombo { combo_values : list Z; combo_text : string }.

(** sales.py 142-170: the window as it stands when the main loop starts. *)
Record Window := mkWindow
  { store_combo : Combobox; dept_combo : Combobox; weeks_entry : string }.

(** ** A concrete engine, to run the pipelines: what does not depend on the
    column *)

Fixpoint digits_value (s : string) (acc : Z) : option Z :=
  match s with
  | EmptyString => Some acc
  | String c s' =>
      let n := Z.of_nat (nat_of_ascii c) in
      if (48 <=? n) && (n <=? 57) then digits_value s' (10 * acc + (n - 48))
      else None
  end.

(** Decimal numerals with an optional minus sign: an instance of [py_int]. *)
Definition int_of_decimal (s : string) : option Z :=
  match s with
  | EmptyString => None
  | String "-"%char EmptyString => None
  | String "-"%char s' => option_map Z.opp (digits_value s' 0)
  | _ => digits_value s 0
  end.

(** Six decimal places: the exact rationals of the recurrences grow with
    every step, so the example engine keeps its state at a fixed precision. *)
Definition round6 (q : Q) : Q :=
  Qred (Qfloor (q * inject_Z 1000000) # 1000000).

Definition Qmean (l : list Q) : Q :=
  round6 (fold_right Qplus 0%Q l / inject_Z (len l)).

Fixpoint set_nth {A : Type} (i : nat) (x : A) (l : list A) : list A :=
  match l, i with
  | [], _ => []
  | _ :: l', O => x :: l'
  | y :: l', S i' => y :: set_nth i' x l'
  end.

(** Modelled from the spec: one step of the recurrences of section 4.3 (the
    fitting code is statsmodels', not the repository's), on the state and
    the 0-based time index:
    L_t = a (y_t - S_(t-m)) + (1 - a) (L_(t-1) + phi T_(t-1)),
    T_t = b (L_t - L_(t-1)) + (1 - b) phi T_(t-1),
    S_t = g (y_t - L_t) + (1 - g) S_(t-m). *)
Definition hw_update (al be ga : Q) (m : nat) (st : HWParams * nat) (y : Q)
    : HWParams * nat :=
  let (p, t) := st in
  let s_old := nth (t mod m)%nat (season p) 0%Q in
  let L :=
    round6 (al * (y - s_old) + (1 - al) * (level p + phi p * trend p)) in
  let T := round6 (be * (L - level p) + (1 - be) * phi p * trend p) in
  let s_new := round6 (ga * (y - L) + (1 - ga) * s_old) in
  (mkParams L T (set_nth (t mod m)%nat s_new (season p)) (phi p), S t).

(** ** The pipelines, for any column *)

Section Pipelines.
Context {num : Type} {col : Column num}.

(** A row of the merged frame: the sales row, and the matched row of each
    right-hand table, [None] when the left join found no match (all of its
    columns are NaN). *)
Record Row := mkRow
  { sale : Train.t num; feat : option Features.t; meta : option Stores.t }.

Definition Store (r : Row) : Z := Train.Store (sale r).
Definition Dept (r : Row) : Z := Train.Dept (sale r).
Definition Date (r : Row) : Z := Train.Date (sale r).
Definition Weekly_Sales (r : Row) : num := Train.Weekly_Sales (sale r).

Definition Series := list (Z * num).

(** *** Sums *)

(** One step of the kernel behind [groupby(...).sum()] and
    [resample(...).sum()] (pandas' [group_sum]), on the running sum and its
    compensation: a missing value is skipped; otherwise
    [y = val - compensation; t = sumx + y; compensation = t - sumx - y;
     if compensation != compensation: compensation = 0; sumx = t]. *)
Definition sum_step (st : num * num) (val : num) : num * num :=
  let (sumx, compensation) := st in
  if isna val then st
  else
    let y := num_sub val compensation in
    let t := num_add sumx y in
    let c := num_sub (num_sub t sumx) y in
    (t, if isna c then num_zero else c).

(** The sum of one group, its values taken in the order of the rows; the sum
    of no value is 0 ([min_count=0]). *)
Definition nansum (cs : list num) : num :=
  fst (fold_left sum_step cs (num_zero, num_zero)).

(** *** Resampling *)

Definition week_sum (ts : Series) (w : Z) : num :=
  nansum (map snd (filter (fun p => week_end (fst p) =? w) ts)).

(** [n] consecutive weekly buckets from the Sunday [lo] on, each labelled by
    its Sunday and holding the sum [total] gives for it. *)
Definition week_buckets (total : Z -> num) (lo : Z) (n : nat) : Series :=
  map (fun k => (lo + 7 * Z.of_nat k, total (lo + 7 * Z.of_nat k)))
    (seq 0 n).

(** One bucket per week from the week of the earliest of [dates] to the week
    of the latest one, none skipped. *)
Definition week_frame (total : Z -> num) (dates : list Z) : Series :=
  match dates with
  | [] => []
  | _ :: _ =>
      let lo := week_end (list_min dates) in
      let hi := week_end (list_max dates) in
      week_buckets total lo (Z.to_nat ((hi - lo) / 7 + 1))
  end.

(** [ts.resample("W").sum()]: the buckets span the index of [ts]; each holds
    the sum of its entries in index order (0 when it has none). *)
Definition resample_W_sum (ts : Series) : Series :=
  week_frame (week_sum ts) (map fst ts).

(** [ts.dropna()] *)
Definition dropna (ts : Series) : Series :=
  filter (fun p => negb (isna (snd p))) ts.

(** [sd.groupby("Date")["Weekly_Sales"].sum()] *)
Definition groupby_Date_sum (sd : list Row) : Series :=
  map (fun d =>
         (d, nansum (map Weekly_Sales (filter (fun r => Date r =? d) sd))))
      (unique_sorted (map Date sd)).

(** [ts.sort_index()] *)
Definition sort_index (ts : Series) : Series :=
  sort_values (fun a b => fst a <=? fst b) ts.

(** [sd.set_index("Date")["Weekly_Sales"]] *)
Definition set_index_Date (sd : list Row) : Series :=
  map (fun r => (Date r, Weekly_Sales r)) sd.

(** [data[(data["Store"] == store_id) & (data["Dept"] == dept_id)]] *)
Definition filter_key (data : list Row) (store_id dept_id : Z) : list Row :=
  filter (fun r => (Store r =? store_id) && (Dept r =? dept_id)) data.

(** *** load_data (app.py 15-33, sales.py 11-30)

    The three tables are the arguments: reading the CSV files and the
    FileNotFoundError branch are file handling and are not modelled. *)

Definition on_features (s : Train.t num) (f : Features.t) : bool :=
  (Train.Store s =? Features.Store f)
  && (Train.Date s =? Features.Date f)
  && Bool.eqb (Train.IsHoliday s) (Features.IsHoliday f).

Definition on_store (r : Train.t num * option Features.t) (m : Stores.t)
    : bool :=
  Train.Store (fst r) =? Stores.Store m.

(** ascending by the columns Store, Dept, Date in that order *)
Definition key_leb (a b : Row) : bool :=
  (Store a <? Store b)
  || ((Store a =? Store b)
      && ((Dept a <? Dept b)
          || ((Dept a =? Dept b) && (Date a <=? Date b)))).

Definition load_data (train : list (Train.t num)) (stores : list Stores.t)
    (features : list Features.t) : list Row :=
  let data := merge_left on_features (fun s f => (s, f)) train features in
  let data := merge_left on_store (fun r m => mkRow (fst r) (snd r) m)
                data stores in
  sort_values key_leb data.

(** *** The forecast step *)

(** A results object keeps the series it was fitted on. *)
Record HWResults := mkResults { endog : Series; fitted : HWParams }.

Definition last_date (ts : Series) : Z := last (map fst ts) 0.

(** Modelled from the spec: [forecast] is the [forecast(steps)] method of the
    statsmodels results object, which is not part of the repository; this is
    the Forecaster of section 4.4: it fails with InvalidParameter when h < 1,
    and otherwise gives, for k = 1..h, the date lastHistoricalDate + 7k with
    the value L + T * (phi^1 + ... + phi^k) + S[(n + k - 1) mod m]. *)
Definition forecast (res : HWResults) (h : Z) : exn + Forecast :=
  if h <? 1 then inl "InvalidParameter: horizon must be at least 1"%string
  else
    let p := fitted res in
    let n := length (endog res) in
    let m := length (season p) in
    inr (map (fun k =>
                (last_date (endog res) + 7 * Z.of_nat k,
                 Qred (level p + trend p * damping_sum (phi p) k
                       + nth ((n + k - 1) mod m)%nat (season p) 0%Q)))
             (seq 1 (Z.to_nat h))).

(** *** generate_forecast (app.py 57-105) *)

(** The returned tuple (ts, future_forecast_series, forecast_df, message).
    [forecast_df] holds the rows of the forecast; the rendering of its dates
    as text is not modelled. *)
Definition result : Type :=
  option Series * option Forecast * option Forecast * message.

Definition failure (msg : message) : result := (None, None, None, msg).

(** Lines 67-71: sort by date, resample to weekly sums. *)
Definition resampled_app (sd : list Row) : Series :=
  let sd := sort_values (fun a b => Date a <=? Date b) sd in
  resample_W_sum (set_index_Date sd).

(** Line 74: drop the weeks whose sum is NaN. *)
Definition weekly_series_app (sd : list Row) : Series :=
  dropna (resampled_app sd).

(** Lines 85-105: the [try] block; any exception becomes a message. *)
Definition fit_and_forecast (hw_fit : HWConfig -> Series -> exn + HWParams)
    (ts : Series) (store_id dept_id future_periods seasonal_periods : Z)
    : result :=
  match hw_fit (mkConfig false seasonal_periods None) ts with
  | inl e => failure (MsgFitError e)
  | inr p =>
      match forecast (mkResults ts p) future_periods with
      | inl e => failure (MsgFitError e)
      | inr future_forecast =>
          (Some ts, Some future_forecast, Some future_forecast,
           MsgSuccess future_periods store_id dept_id)
      end
  end.

Definition generate_forecast (hw_fit : HWConfig -> Series -> exn + HWParams)
    (data : list Row) (store_id dept_id future_periods seasonal_periods : Z)
    : result :=
  let sd := filter_key data store_id dept_id in
  if empty sd then failure (MsgNoData store_id dept_id)
  else
    let ts := weekly_series_app sd in
    if len ts <? Z.max (2 * seasonal_periods) (seasonal_periods + 5) then
      failure (MsgInsufficient (len ts) (2 * seasonal_periods)
                 seasonal_periods)
    else
      fit_and_forecast hw_fit ts store_id dept_id future_periods
        seasonal_periods.

(** *** run_forecast (sales.py 42-117)

    The callback returns nothing; what it does is one of: a message box
    (title, text), the plot of the history and the forecast, or an exception
    that leaves the callback.  The three widget values are the arguments
    (reading them, lines 43-49, does not fail).  [py_int] is Python's [int]
    on a string, [None] when it raises ValueError. *)
Inductive outcome :=
| showerror (title text : string)
| plot (ts : Series) (future_forecast : Forecast)
       (store_id dept_id future_periods : Z)
| raised (e : exn).

(** Lines 77-80: per-date sums, sorted, resampled to weekly sums. *)
Definition weekly_series_sales (sd : list Row) : Series :=
  let ts := sort_index (groupby_Date_sum sd) in
  resample_W_sum ts.

(** Lines 86-117: fit with fixed smoothing parameters, forecast, plot.  Only
    the construction and the fit stand inside the [try]. *)
Definition fit_and_plot (hw_fit : HWConfig -> Series -> exn + HWParams)
    (ts : Series) (store_id dept_id future_periods : Z) : outcome :=
  let seasonal_periods := 52 in
  match hw_fit (mkConfig true seasonal_periods
                  (Some (1 # 5, 1 # 5, 1 # 5)%Q)) ts with
  | inl e => showerror "Model error" ("Error fitting model:" ++ newline ++ e)
  | inr p =>
      match forecast (mkResults ts p) future_periods with
      | inl e => raised e
      | inr future_forecast =>
          plot ts future_forecast store_id dept_id future_periods
      end
  end.

Definition run_forecast (py_int : string -> option Z)
    (hw_fit : HWConfig -> Series -> exn + HWParams) (data : list Row)
    (store_val dept_val weeks_val : string) : outcome :=
  if (store_val =? "")%string || (dept_val =? "")%string then
    showerror "Input error" "Please select both Store and Department."
  else
    match py_int store_val, py_int dept_val with
    | Some store_id, Some dept_id =>
        match py_int weeks_val with
        | Some future_periods =>
            if future_periods <=? 0 then
              showerror "Input error"
                "Weeks to forecast must be a positive integer."
            else
              let sd := filter_key data store_id dept_id in
              if empty sd then
                showerror "No data" "No rows for this Store/Dept combination."
              else
                let ts := weekly_series_sales sd in
                if len ts <? 20 then
                  showerror "Not enough data"
                    "Need at least 20 data points for forecasting."
                else
                  fit_and_plot hw_fit ts store_id dept_id future_periods
        | None =>
            showerror "Input error"
              "Weeks to forecast must be a positive integer."
        end
    | _, _ => showerror "Input error" "Store and Dept must be numbers."
    end.

(** *** The selection lists and the widgets (sales.py 36, 123-136, 142-170;
    app.py 43-47) *)

(** sales.py 36: [store_ids = sorted(data["Store"].unique())]. *)
Definition store_ids (data : list Row) : list Z :=
  sorted (unique (map Store data)).

(** app.py 43-44: the two lists offered by the select boxes. *)
Definition all_stores (data : list Row) : list Z :=
  sorted (unique (map Store data)).

Definition all_depts (data : list Row) : list Z :=
  sorted (unique (map Dept data)).

(** sales.py 123-136.  The function changes nothing but the department combo
    box, so it is given as the new state of that box. *)
Definition on_store_change (py_int : string -> option Z) (data : list Row)
    (store_combo dept_combo : Combobox) : Combobox :=
  let store_val := combo_text store_combo in
  if (store_val =? "")%string then dept_combo
  else
    match py_int store_val with
    | None => dept_combo
    | Some sid =>
        let depts :=
          sorted (unique (map Dept (filter (fun r => Store r =? sid) data))) in
        match depts with
        | [] => mkCombo depts (combo_text dept_combo)
        | d0 :: _ => mkCombo depts (show d0)
        end
    end.

Definition build_window (py_int : string -> option Z) (data : list Row)
    : Window :=
  let ids := store_ids data in
  let dept_combo := mkCombo [] "" in
  match ids with
  | [] => mkWindow (mkCombo ids "") dept_combo "30"
  | s0 :: _ =>
      let store_combo := mkCombo ids (show s0) in
      mkWindow store_combo
        (on_store_change py_int data store_combo dept_combo) "30"
  end.

(** The Run button: [run_forecast] reads the three widgets. *)
Definition press_run (py_int : string -> option Z)
    (hw_fit : HWConfig -> Series -> exn + HWParams) (data : list Row)
    (w : Window) : outcome :=
  run_forecast py_int hw_fit data (combo_text (store_combo w))
    (combo_text (dept_combo w)) (weeks_entry w).

(** *** The main logic of app.py (109-150)

    What the page shows after the script ran: nothing new when the button was
    not pressed; the subheader and the error; or the subheader, the success
    message, the plotted history and forecast, the table and the name of the
    file offered for download.  Line 116 tests [ts_historical] alone; using
    the other two parts when they are [None] raises AttributeError. *)
Inductive page :=
| idle
| error_page (subheader status : string)
| forecast_page (subheader status : string) (historical : Series)
    (forecast_series : Forecast) (table : Forecast) (file_name : string)
| attribute_error.

Definition main_logic (hw_fit : HWConfig -> Series -> exn + HWParams)
    (data : list Row) (run_button : bool)
    (selected_store selected_dept future_periods seasonal_periods : Z)
    : page :=
  if run_button then
    let subheader :=
      ("Results for Store " ++ show selected_store ++ ", Department "
       ++ show selected_dept)%string in
    match generate_forecast hw_fit data selected_store selected_dept
            future_periods seasonal_periods with
    | (None, _, _, status_message) =>
        error_page subheader (message_text status_message)
    | (Some ts_historical, Some future_forecast_series,
       Some forecast_table_df, status_message) =>
        forecast_page subheader (message_text status_message) ts_historical
          future_forecast_series forecast_table_df
          ("forecast_store" ++ show selected_store ++ "_dept"
           ++ show selected_dept ++ ".csv")%string
    | (Some _, _, _, _) => attribute_error
    end
  else idle.

(** ** What the specification speaks of *)

(** The key (store, department) matches no row of the dataset. *)
Definition absent (data : list Row) (s d : Z) : Prop :=
  forall r, In r data -> ~ (Store r = s /\ Dept r = d).

(** Ascending by (Store, Dept, Date), as a relation. *)
Definition key_le (a b : Row) : Prop :=
  Store a < Store b
  \/ (Store a = Store b
      /\ (Dept a < Dept b \/ (Dept a = Dept b /\ Date a <= Date b))).

(** The join keys of a sales row and a feature row agree. *)
Definition feature_keys_agree (s : Train.t num) (f : Features.t) : Prop :=
  Features.Store f = Train.Store s /\ Features.Date f = Train.Date s
  /\ Features.IsHoliday f = Train.IsHoliday s.

(** The rows of one key whose date falls in the week that ends on the Sunday
    [w], and those of one day, in the order of the dataset. *)
Definition week_rows (data : list Row) (s d w : Z) : list Row :=
  filter (fun r => (Store r =? s) && (Dept r =? d)
                   && (week_end (Date r) =? w)) data.

Definition day_rows (data : list Row) (s d x : Z) : list Row :=
  filter (fun r => (Store r =? s) && (Dept r =? d) && (Date r =? x)) data.

(** The sum of a list of values in the arithmetic of the column, term by
    term. *)
Definition total (cs : list num) : num := fold_right num_add num_zero cs.

(** The sum of the sales of one key over one week, taken on the source rows
    (what the specification asks of each value of the weekly series). *)
Definition week_total (data : list Row) (s d w : Z) : num :=
  total (map Weekly_Sales (week_rows data s d w)).

(** The weekly series as the specification words it, on the rows of one
    key: for every week from the week of the first observation to the week
    of the last one, the sum of the sales whose date falls in that week. *)
Definition rows_week_sum (sd : list Row) (w : Z) : num :=
  total (map Weekly_Sales (filter (fun r => week_end (Date r) =? w) sd)).

Definition weekly_totals (sd : list Row) : Series :=
  week_frame (rows_week_sum sd) (map Date sd).

(** The dates of a weekly series of a key: one week apart, and the week of
    every sale of the key is there. *)
Definition covers_weeks (data : list Row) (s d : Z) (dates : list Z) : Prop :=
  weekly_spaced dates
  /\ (forall r, In r data -> Store r = s -> Dept r = d ->
                In (week_end (Date r)) dates).

(** What the specification asks of the weekly series [ts] of a key: every
    value is the sum of the sales of the key in its week, the dates are one
    week apart, and the week of every sale of the key is there. *)
Definition weekly_series_of (data : list Row) (s d : Z) (ts : Series) : Prop :=
  (forall w v, In (w, v) ts -> v = week_total data s d w)
  /\ weekly_spaced (map fst ts)
  /\ (forall r, In r data -> Store r = s -> Dept r = d ->
                In (week_end (Date r)) (map fst ts)).

(** What each construction sums for the week [w] of the rows [sd] of a
    key: app.py the rows of the frame sorted by date, sales.py the sums by
    date in the order of the sorted index. *)
Definition app_week_sum (sd : list Row) (w : Z) : num :=
  week_sum (set_index_Date (sort_values (fun a b => Date a <=? Date b) sd)) w.

Definition sales_week_sum (sd : list Row) (w : Z) : num :=
  week_sum (sort_index (groupby_Date_sum sd)) w.

(** What app.py puts into the bucket of week [w]: the pandas sum of the rows
    of the key in that week, taken in ascending order of their dates (rows of
    one date in some order). *)
Definition summed_by_row (data : list Row) (s d w : Z) (v : num) : Prop :=
  exists rows,
    Permutation rows (week_rows data s d w)
    /\ StronglySorted (fun a b => Date a <= Date b) rows
    /\ v = nansum (map Weekly_Sales rows).

(** What sales.py puts into the bucket of week [w]: the pandas sum, over the
    days of that week on which the key has a row, in ascending order, of the
    pandas sum of the rows of the day. *)
Definition summed_by_day (data : list Row) (s d w : Z) (v : num) : Prop :=
  exists days,
    StronglySorted Z.lt days
    /\ (forall x, In x days
                  <-> exists r, In r (week_rows data s d w) /\ Date r = x)
    /\ v = nansum (map (fun x =>
                          nansum (map Weekly_Sales (day_rows data s d x)))
                       days).

(** The first and the last entry of [ts] are weeks in which the key has a
    source row. *)
Definition ends_observed (data : list Row) (s d : Z) (ts : Series) : Prop :=
  ts <> []
  /\ (exists r, In r data /\ Store r = s /\ Dept r = d
                /\ week_end (Date r) = fst (hd (0, num_zero) ts))
  /\ (exists r, In r data /\ Store r = s /\ Dept r = d
                /\ week_end (Date r) = last_date ts).

(** What the specification asks of a forecast [fc] of horizon [h] after the
    history [ts]: [h] points, the k-th of them k weeks after the last
    historical date. *)
Definition forecast_of (ts : Series) (h : Z) (fc : Forecast) : Prop :=
  len fc = h
  /\ (forall k, (k < length fc)%nat ->
                fst (nth k fc (0, 0%Q)) = last_date ts + 7 * (Z.of_nat k + 1))
  /\ weekly_spaced (map fst fc)
  /\ hd_error (map fst fc) = Some (last_date ts + 7).

(** *** Counting the rows of the join *)

(** How many rows of the merged frame come from the sales row [s]: one per
    matching feature row (one if none matches), times one per matching store
    row (one if none matches). *)
Definition copies (stores : list Stores.t) (features : list Features.t)
    (s : Train.t num) : nat :=
  (Nat.max 1 (length (filter (on_features s) features))
   * Nat.max 1 (length (filter (fun m => (Train.Store s =? Stores.Store m)%Z)
                          stores)))%nat.

(** The sales of one key over one week, taken on train.csv itself. *)
Definition train_week_total (train : list (Train.t num))
    (store_id dept_id w : Z) : num :=
  total (map Train.Weekly_Sales
           (filter (fun s => (Train.Store s =? store_id)
                             && (Train.Dept s =? dept_id)
                             && (week_end (Train.Date s) =? w)) train)).

(** *** A fixed-mode engine, to run the pipelines *)

(** Modelled from the spec: a fixed-mode fitter in the sense of section 4.3,
    used as the instance of [hw_fit] in the examples; [value] reads a value
    of the column as a rational, [None] for NaN and the infinities, which the
    fitter refuses.  Initial state: the mean of the first cycle, the
    per-period difference of the means of the first two cycles, and the
    deviations of the first cycle from its mean; it refuses a seasonal period
    below 2 and fewer than two cycles.  Without given smoothing parameters it
    runs no search and takes 1/5 for each; a damped trend has phi = 0.98. *)
Definition holt_winters_fit (value : num -> option Q) (cfg : HWConfig)
    (ts : Series) : exn + HWParams :=
  let mz := hw_seasonal_periods cfg in
  if mz <? 2 then inl "seasonal_periods must be larger than 1."%string
  else if len ts <? 2 * mz then
    inl "Cannot compute initial seasonals with less than two full seasonal cycles in the data."%string
  else if existsb (fun p => match value (snd p) with
                            | Some _ => false | None => true end) ts then
    inl "The series holds a value that is not a finite number."%string
  else
    let m := Z.to_nat mz in
    let y := map (fun p => match value (snd p) with
                           | Some q => q | None => 0%Q end) ts in
    let '(al, be, ga) := match smoothing cfg with
                         | Some s => s
                         | None => (1 # 5, 1 # 5, 1 # 5)%Q
                         end in
    let ph := if damped_trend cfg then (49 # 50)%Q else 1%Q in
    let c1 := firstn m y in
    let c2 := firstn m (skipn m y) in
    let L0 := Qmean c1 in
    let T0 := round6 ((Qmean c2 - L0) / inject_Z mz) in
    let S0 := map (fun v => round6 (v - L0)) c1 in
    inr (fst (fold_left (hw_update al be ga m) y
                (mkParams L0 T0 S0 ph, 0%nat))).

Definition sales_row (store dept date : Z) (amount : num) : Row :=
  mkRow (Train.mk store dept date amount false) None None.

(** [n] consecutive Fridays of store 1, department 1, from week [first] on
    (week 0 has day 8, 1970-01-09), week k selling [of_Z (100 + k)]. *)
Definition friday_rows (of_Z : Z -> num) (first n : nat) : list Row :=
  map (fun k => sales_row 1 1 (8 + 7 * Z.of_nat k) (of_Z (100 + Z.of_nat k)))
      (seq first n).

Definition friday_sales (of_Z : Z -> num) (n : nat) : list (Train.t num) :=
  map (fun k => Train.mk 1 1 (8 + 7 * Z.of_nat k)
                  (of_Z (100 + Z.of_nat k)) false) (seq 0 n).

End Pipelines.

Arguments Row : clear implicits.
Arguments Series : clear implicits.
Arguments HWResults : clear implicits.
Arguments result : clear implicits.
Arguments outcome : clear implicits.
Arguments page : clear implicits.

(** A column whose arithmetic is exact: addition is that of a commutative
    monoid, a sum loses nothing that a compensation would have to carry, and
    no value is missing.  The int64 column is one (its sums are taken modulo
    2^64); the float64 column is not. *)
Record Exact {num : Type} (col : Column num) : Prop := mkExact
  { add_comm : forall a b : num, num_add a b = num_add b a;
    add_assoc : forall a b c : num,
        num_add a (num_add b c) = num_add (num_add a b) c;
    add_zero_l : forall a : num, num_add num_zero a = a;
    sub_zero_r : forall a : num, num_sub a num_zero = a;
    no_rounding : forall s v : num,
        num_sub (num_sub (num_add s v) s) v = num_zero;
    no_nan : forall a : num, isna a = false }.

Arguments add_comm {num col}.
Arguments add_assoc {num col}.
Arguments add_zero_l {num col}.
Arguments sub_zero_r {num col}.
Arguments no_rounding {num col}.
Arguments no_nan {num col}.

(** ** Concrete inputs *)

(** The engine on a float64 and on an int64 column. *)
Definition reference_fit : HWConfig -> Series float -> exn + HWParams :=
  holt_winters_fit float_value.

Definition reference_fit_int64 : HWConfig -> Series int64 -> exn + HWParams :=
  holt_winters_fit int64_value.

(** [n] consecutive Fridays of store 1, department 1, from day 8
    (1970-01-09), week k selling 100 + k. *)
Definition fridays (n : nat) : list (Row float) := friday_rows float_of_Z 0 n.

Definition fridays_int64 (n : nat) : list (Row int64) :=
  friday_rows int64_of_Z 0 n.

(** Two sales of store 1, department 1 on one Friday (day 8) and one on the
    Monday of the fourth week (day 25), and a sale of store 2. *)
Definition sparse_rows : list (Row float) :=
  [ sales_row 1 1 8 (float_of_Z 10); sales_row 1 1 8 (float_of_Z 5);
    sales_row 2 1 8 (float_of_Z 1000); sales_row 1 1 25 (float_of_Z 7) ].

(** Two years of Fridays after the sparse rows. *)
Definition history : list (Row float) := sparse_rows ++ fridays 104.

(** The same on an int64 column. *)
Definition history_int64 : list (Row int64) :=
  [ sales_row 1 1 8 (int64_of_Z 10); sales_row 1 1 8 (int64_of_Z 5);
    sales_row 2 1 8 (int64_of_Z 1000); sales_row 1 1 25 (int64_of_Z 7) ]
  ++ fridays_int64 104.

(** Small tables for [load_data]: the second sales row has no feature row
    (its IsHoliday differs), the third has no store row; the last one has no
    sales figure. *)
Definition train_rows : list (Train.t float) :=
  [ Train.mk 2 1 8 (float_of_Z 30) false; Train.mk 1 2 15 (float_of_Z 20) true;
    Train.mk 1 1 8 (float_of_Z 10) false; Train.mk 3 1 8 PrimFloat.nan false ].

Definition feature_rows : list Features.t :=
  [ Features.mk 1 8 false [float_of_Z 42];
    Features.mk 1 15 false [float_of_Z 40];
    Features.mk 2 8 false [PrimFloat.nan];
    Features.mk 3 8 false [float_of_Z 39] ].

Definition store_rows : list Stores.t :=
  [ Stores.mk 1 "A" 151315; Stores.mk 2 "B" 202307 ].

(** [n] consecutive Fridays of store 1, department 1, as rows of train.csv. *)
Definition train_fridays (n : nat) : list (Train.t float) :=
  friday_sales float_of_Z n.

Definition train_fridays_int64 (n : nat) : list (Train.t int64) :=
  friday_sales int64_of_Z n.

(** An int64 column with three sales of 2^62 in the first week (two on the
    Friday, one on the Saturday), then six Fridays. *)
Definition large_rows : list (Row int64) :=
  [ sales_row 1 1 8 (int64_of_Z (2 ^ 62));
    sales_row 1 1 8 (int64_of_Z (2 ^ 62));
    sales_row 1 1 9 (int64_of_Z (2 ^ 62)) ]
  ++ friday_rows int64_of_Z 1 6.

(** A float64 column with sales of 2^53 and 1 on the first Friday and of 1 on
    the Saturday after it, then two years of Fridays. *)
Definition uneven_rows : list (Row float) :=
  [ sales_row 1 1 8 (float_of_Z (2 ^ 53)); sales_row 1 1 8 (float_of_Z 1);
    sales_row 1 1 9 (float_of_Z 1) ]
  ++ friday_rows float_of_Z 1 104.

(** A float64 column whose first week holds +inf (Friday) and -inf
    (Saturday); no sale in the second week; then six Fridays. *)
Definition infinite_first_week : list (Row float) :=
  [ sales_row 1 1 8 PrimFloat.infinity; sales_row 1 1 9 PrimFloat.neg_infinity ]
  ++ friday_rows float_of_Z 2 6.

(** A float64 column with one Friday, then a week that holds +inf and -inf,
    then six Fridays. *)
Definition infinite_second_week : list (Row float) :=
  friday_rows float_of_Z 0 1
  ++ [ sales_row 1 1 15 PrimFloat.infinity;
       sales_row 1 1 16 PrimFloat.neg_infinity ]
  ++ friday_rows float_of_Z 2 6.

(** The rational sum of the values of a list, those that are numbers. *)
Definition rational_sum {num : Type} (value : num -> option Q) (cs : list num)
    : Q :=
  Qred (fold_right Qplus 0%Q
          (map (fun c => match value c with Some q => q | None => 0%Q end) cs)).

(** * Properties *)

(** ** Sorting *)

Section Sorting.
Context {A : Type} (leb : A -> A -> bool).

Lemma insert_by_perm (x : A) (l : list A) :
  Permutation (x :: l) (insert_by leb x l).
Proof.
  induction l as [|y l IH]; simpl.
  - apply Permutation_refl.
  - destruct (leb x y).
    + apply Permutation_refl.
    + eapply perm_trans; [apply perm_swap|]. now apply perm_skip.
Qed.

Lemma sort_values_perm (l : list A) : Permutation l (sort_values leb l).
Proof.
  induction l as [|x l IH]; simpl.
  - constructor.
  - eapply perm_trans; [apply perm_skip, IH|]. apply insert_by_perm.
Qed.

Lemma sort_values_In (l : list A) (x : A) :
  In x (sort_values leb l) <-> In x l.
Proof.
  split; apply Permutation_in;
    [apply Permutation_sym|]; apply sort_values_perm.
Qed.

Lemma sort_values_nil (l : list A) : sort_values leb l = [] -> l = [].
Proof.
  intros H. apply Permutation_nil. rewrite <- H.
  apply Permutation_sym, sort_values_perm.
Qed.

Hypothesis leb_total : forall a b, leb a b = true \/ leb b a = true.

Lemma insert_by_sorted (x : A) (l : list A) :
  Sorted (fun a b => leb a b = true) l ->
  Sorted (fun a b => leb a b = true) (insert_by leb x l).
Proof.
  induction l as [|y l IH]; simpl; intros Hs.
  - repeat constructor.
  - destruct (leb x y) eqn:E.
    + constructor; [assumption | constructor; assumption].
    + inversion Hs as [|? ? Hs' Hhd]; subst.
      constructor; [now apply IH|].
      destruct l as [|z l]; simpl.
      * constructor. destruct (leb_total x y); congruence.
      * destruct (leb x z).
        -- constructor. destruct (leb_total x y); congruence.
        -- constructor. now inversion Hhd.
Qed.

Lemma sort_values_sorted (l : list A) :
  Sorted (fun a b => leb a b = true) (sort_values leb l).
Proof.
  induction l as [|x l IH]; simpl.
  - constructor.
  - now apply insert_by_sorted.
Qed.
End Sorting.

(** ** Lists *)

Lemma filter_perm {A : Type} (f : A -> bool) (l1 l2 : list A) :
  Permutation l1 l2 -> Permutation (filter f l1) (filter f l2).
Proof.
  induction 1 as [| x ? ? ? IH | x y ? | ? ? ? ? IH1 ? IH2]; simpl.
  - constructor.
  - destruct (f x); [now constructor | assumption].
  - destruct (f x), (f y); try apply Permutation_refl. apply perm_swap.
  - eapply perm_trans; eassumption.
Qed.

Lemma filter_filter {A : Type} (f g : A -> bool) (l : list A) :
  filter f (filter g l) = filter (fun x => g x && f x) l.
Proof.
  induction l as [|x l IH]; simpl; [reflexivity|].
  destruct (g x); simpl; [destruct (f x)|]; now rewrite IH.
Qed.

Lemma filter_map_comm {A B : Type} (f : B -> bool) (g : A -> B) (l : list A) :
  filter f (map g l) = map g (filter (fun a => f (g a)) l).
Proof.
  induction l as [|x l IH]; simpl; [reflexivity|].
  destruct (f (g x)); simpl; now rewrite IH.
Qed.

Lemma perm_In_iff {A : Type} (l l' : list A) :
  Permutation l l' -> forall x, In x l <-> In x l'.
Proof.
  intros H x. split; apply Permutation_in;
    [assumption | now apply Permutation_sym].
Qed.

Lemma filter_nil_iff {A : Type} (f : A -> bool) (l : list A) :
  filter f l = [] <-> forall x, In x l -> f x = false.
Proof.
  split.
  - intros E x Hx. destruct (f x) eqn:Ef; [|reflexivity].
    assert (H : In x (filter f l)) by (apply filter_In; auto).
    rewrite E in H. contradiction.
  - intros H. induction l as [|x l IH]; [reflexivity|]. simpl.
    rewrite (H x (or_introl eq_refl)). apply IH.
    intros y Hy. apply H. now right.
Qed.

Lemma merge_left_In {L R A : Type} (on : L -> R -> bool)
    (out : L -> option R -> A) (left : list L) (right : list R) (a : A) :
  In a (merge_left on out left right) <->
  exists l, In l left
            /\ ((exists r, In r right /\ on l r = true /\ a = out l (Some r))
                \/ ((forall r, In r right -> on l r = false)
                    /\ a = out l None)).
Proof.
  unfold merge_left. rewrite in_flat_map.
  split; intros (l & Hl & H); exists l; (split; [assumption|]).
  - destruct (filter (on l) right) as [|r0 ms] eqn:E.
    + right. destruct H as [<-|[]]. split; [|reflexivity].
      now apply filter_nil_iff.
    + left. apply in_map_iff in H. destruct H as (r & <- & Hr).
      rewrite <- E in Hr. apply filter_In in Hr. exists r. tauto.
  - destruct H as [(r & Hr & Hon & ->)|(Hno & ->)].
    + assert (Hf : In r (filter (on l) right)) by (apply filter_In; auto).
      destruct (filter (on l) right) as [|r0 ms]; [contradiction|].
      apply in_map_iff. exists r. auto.
    + apply filter_nil_iff in Hno. rewrite Hno. now left.
Qed.

Lemma nth_map_seq {B : Type} (f : nat -> B) (a n i : nat) (d : B) :
  (i < n)%nat -> nth i (map f (seq a n)) d = f (a + i)%nat.
Proof.
  intros Hi.
  rewrite nth_indep with (d' := f 0%nat)
    by now rewrite length_map, length_seq.
  now rewrite map_nth, seq_nth.
Qed.

Lemma last_map_seq {B : Type} (f : nat -> B) (n : nat) (d : B) :
  last (map f (seq 0 (S n))) d = f n.
Proof.
  rewrite seq_S, map_app. simpl. apply last_last.
Qed.

Lemma empty_false {A : Type} (l : list A) : empty l = false <-> l <> [].
Proof. destruct l; simpl; split; congruence. Qed.

Lemma empty_true {A : Type} (l : list A) : empty l = true <-> l = [].
Proof. destruct l; simpl; split; congruence. Qed.

Lemma empty_perm {A : Type} (l l' : list A) :
  Permutation l l' -> empty l = empty l'.
Proof.
  intros Hp. destruct l as [|x l].
  - apply Permutation_nil in Hp. now subst.
  - destruct l' as [|y l']; [|reflexivity].
    apply Permutation_sym, Permutation_nil in Hp. discriminate.
Qed.

(** ** Weeks *)

Lemma week_end_range (d : Z) : d <= week_end d < d + 7.
Proof.
  unfold week_end. pose proof (Z.mod_pos_bound (3 - d) 7). lia.
Qed.

Lemma week_end_sunday (d : Z) : week_end d mod 7 = 3.
Proof.
  unfold week_end.
  rewrite Zplus_mod_idemp_r. replace (d + (3 - d)) with 3 by lia.
  reflexivity.
Qed.

Lemma week_end_mono (d1 d2 : Z) : d1 <= d2 -> week_end d1 <= week_end d2.
Proof.
  intros H.
  pose proof (week_end_range d1). pose proof (week_end_range d2).
  pose proof (week_end_sunday d1). pose proof (week_end_sunday d2).
  rewrite Z.mod_eq in * by lia. lia.
Qed.

Lemma week_end_diff (d1 d2 : Z) :
  week_end d2 - week_end d1 = 7 * ((week_end d2 - week_end d1) / 7).
Proof.
  pose proof (week_end_sunday d1). pose proof (week_end_sunday d2).
  rewrite Z.mod_eq in * by lia.
  pose proof (Z.div_mod (week_end d2 - week_end d1) 7).
  pose proof (Z.mod_pos_bound (week_end d2 - week_end d1) 7). lia.
Qed.

Lemma week_end_bucket (d w : Z) :
  week_end d = w <-> w mod 7 = 3 /\ w - 7 < d <= w.
Proof.
  pose proof (week_end_range d). pose proof (week_end_sunday d) as Hs.
  split.
  - intros <-. split; [assumption | lia].
  - intros [Hw Hr]. rewrite Z.mod_eq in Hs, Hw by lia. lia.
Qed.

(** The number of buckets of a resampling, and its last label. *)
Lemma bucket_count (dmin dmax : Z) :
  dmin <= dmax ->
  exists n, Z.to_nat ((week_end dmax - week_end dmin) / 7 + 1) = S n
            /\ week_end dmin + 7 * Z.of_nat n = week_end dmax.
Proof.
  intros H. pose proof (week_end_mono _ _ H) as Hm.
  pose proof (week_end_diff dmin dmax) as Hd.
  set (q := (week_end dmax - week_end dmin) / 7) in *.
  assert (0 <= q) by lia.
  exists (Z.to_nat q). split; lia.
Qed.

(** ** Least and greatest date *)

Lemma fold_min_spec (x : Z) (l : list Z) :
  In (fold_right Z.min x l) (x :: l)
  /\ forall y, In y (x :: l) -> fold_right Z.min x l <= y.
Proof.
  induction l as [|z l [IHin IHle]]; simpl.
  - split; [auto | intros y [<-|[]]; lia].
  - split.
    + destruct (Z.min_spec z (fold_right Z.min x l)) as [[_ ->]|[_ ->]].
      * auto.
      * simpl in IHin. tauto.
    + intros y [<-|[<-|Hy]].
      * specialize (IHle x (or_introl eq_refl)). lia.
      * lia.
      * specialize (IHle y (or_intror Hy)). lia.
Qed.

Lemma fold_max_spec (x : Z) (l : list Z) :
  In (fold_right Z.max x l) (x :: l)
  /\ forall y, In y (x :: l) -> y <= fold_right Z.max x l.
Proof.
  induction l as [|z l [IHin IHle]]; simpl.
  - split; [auto | intros y [<-|[]]; lia].
  - split.
    + destruct (Z.max_spec z (fold_right Z.max x l)) as [[_ ->]|[_ ->]].
      * simpl in IHin. tauto.
      * auto.
    + intros y [<-|[<-|Hy]].
      * specialize (IHle x (or_introl eq_refl)). lia.
      * lia.
      * specialize (IHle y (or_intror Hy)). lia.
Qed.

Lemma list_min_spec (l : list Z) :
  l <> [] -> In (list_min l) l /\ forall y, In y l -> list_min l <= y.
Proof.
  destruct l as [|x l]; [congruence|]. intros _. apply fold_min_spec.
Qed.

Lemma list_max_spec (l : list Z) :
  l <> [] -> In (list_max l) l /\ forall y, In y l -> y <= list_max l.
Proof.
  destruct l as [|x l]; [congruence|]. intros _. apply fold_max_spec.
Qed.

Lemma list_min_ext (l1 l2 : list Z) :
  l1 <> [] -> (forall x, In x l1 <-> In x l2) -> list_min l1 = list_min l2.
Proof.
  intros H1 Hiff.
  assert (H2 : l2 <> []).
  { destruct l1 as [|x l1]; [congruence|].
    intros ->. apply (Hiff x). now left. }
  destruct (list_min_spec l1 H1) as [Hin1 Hle1].
  destruct (list_min_spec l2 H2) as [Hin2 Hle2].
  apply Hiff in Hin1. apply Hiff in Hin2.
  specialize (Hle1 _ Hin2). specialize (Hle2 _ Hin1). lia.
Qed.

Lemma list_max_ext (l1 l2 : list Z) :
  l1 <> [] -> (forall x, In x l1 <-> In x l2) -> list_max l1 = list_max l2.
Proof.
  intros H1 Hiff.
  assert (H2 : l2 <> []).
  { destruct l1 as [|x l1]; [congruence|].
    intros ->. apply (Hiff x). now left. }
  destruct (list_max_spec l1 H1) as [Hin1 Hle1].
  destruct (list_max_spec l2 H2) as [Hin2 Hle2].
  apply Hiff in Hin1. apply Hiff in Hin2.
  specialize (Hle1 _ Hin2). specialize (Hle2 _ Hin1). lia.
Qed.

(** ** Group keys *)

Lemma existsb_eqb_In (d : Z) (l : list Z) :
  existsb (Z.eqb d) l = true <-> In d l.
Proof.
  rewrite existsb_exists. split.
  - intros (x & Hx & E). apply Z.eqb_eq in E. now subst.
  - intros H. exists d. split; [assumption | apply Z.eqb_refl].
Qed.

Lemma unique_sorted_In (l : list Z) (d : Z) :
  In d (unique_sorted l) <-> In d l.
Proof.
  induction l as [|x l IH]; simpl; [tauto|].
  destruct (existsb (Z.eqb x) (unique_sorted l)) eqn:E.
  - apply existsb_eqb_In in E. rewrite IH in *.
    split; [tauto | intros [<-|H]; tauto].
  - rewrite <- (perm_In_iff _ _ (insert_by_perm Z.leb x _)). simpl.
    now rewrite IH.
Qed.

Lemma unique_sorted_NoDup (l : list Z) : NoDup (unique_sorted l).
Proof.
  induction l as [|x l IH]; simpl; [constructor|].
  destruct (existsb (Z.eqb x) (unique_sorted l)) eqn:E; [assumption|].
  eapply Permutation_NoDup; [apply insert_by_perm|].
  constructor; [|assumption].
  intros H. apply existsb_eqb_In in H. congruence.
Qed.

Lemma existsb_filter (P : Z -> bool) (x : Z) (ks : list Z) :
  In x ks -> existsb (Z.eqb x) (filter P ks) = P x.
Proof.
  intros Hin. destruct (P x) eqn:E.
  - apply existsb_eqb_In, filter_In. auto.
  - destruct (existsb (Z.eqb x) (filter P ks)) eqn:E'; [|reflexivity].
    apply existsb_eqb_In, filter_In in E'. destruct E'. congruence.
Qed.

(** ** Distinct values in ascending order *)

Lemma unique_In (l : list Z) (x : Z) : In x (unique l) <-> In x l.
Proof.
  induction l as [|y l IH]; simpl; [tauto|].
  rewrite filter_In, IH, negb_true_iff, Z.eqb_neq.
  destruct (Z.eq_dec x y); intuition.
Qed.

Lemma unique_NoDup (l : list Z) : NoDup (unique l).
Proof.
  induction l as [|y l IH]; simpl; constructor.
  - rewrite filter_In, negb_true_iff, Z.eqb_neq. tauto.
  - now apply NoDup_filter.
Qed.

Lemma sorted_In (l : list Z) (x : Z) : In x (sorted l) <-> In x l.
Proof. apply sort_values_In. Qed.

Lemma Zleb_total (a b : Z) : (a <=? b) = true \/ (b <=? a) = true.
Proof. rewrite !Z.leb_le. lia. Qed.

Lemma sorted_strict (l : list Z) :
  NoDup l -> StronglySorted Z.lt (sorted l).
Proof.
  intros Hnd.
  assert (Hnd' : NoDup (sorted l)).
  { eapply Permutation_NoDup; [apply sort_values_perm | exact Hnd]. }
  assert (Hs : StronglySorted Z.le (sorted l)).
  { apply Sorted_StronglySorted; [intros a b c; lia|].
    pose proof (sort_values_sorted Z.leb Zleb_total l) as H.
    unfold sorted.
    induction H as [|a l' Hs IH Hhd]; constructor; [assumption|].
    destruct Hhd; constructor. now apply Z.leb_le. }
  induction Hs as [|a l' Hs IH Hall]; constructor.
  - apply IH. now inversion Hnd'.
  - inversion Hnd' as [|? ? Hnotin _]; subst.
    rewrite Forall_forall in *. intros x Hx.
    specialize (Hall x Hx).
    assert (x <> a) by (intros ->; contradiction). lia.
Qed.

Lemma sorted_unique_spec (l : list Z) :
  StronglySorted Z.lt (sorted (unique l))
  /\ forall x, In x (sorted (unique l)) <-> In x l.
Proof.
  split.
  - apply sorted_strict, unique_NoDup.
  - intros x. now rewrite sorted_In, unique_In.
Qed.

Lemma show_nonempty (z : Z) : show z <> ""%string.
Proof.
  unfold show.
  assert (Hu : forall p, NilZero.string_of_uint (Pos.to_uint p) <> ""%string).
  { intros p. pose proof (DecimalPos.Unsigned.to_uint_nonnil p) as Hn.
    destruct (Pos.to_uint p); try contradiction; discriminate. }
  destruct z as [|p|p]; simpl.
  - discriminate.
  - apply Hu.
  - discriminate.
Qed.

Lemma strict_head_least (x : Z) (l : list Z) :
  StronglySorted Z.lt (x :: l) -> forall y, In y (x :: l) -> x <= y.
Proof.
  intros H y [<-|Hy]; [lia|].
  inversion H as [|? ? _ Hall]; subst.
  rewrite Forall_forall in Hall. specialize (Hall y Hy). lia.
Qed.

Lemma reported_need_below_minimum (m : Z) :
  m < 5 -> 2 * m < min_points m.
Proof. unfold min_points. lia. Qed.

(** ** Repetition in joins *)

Lemma flat_map_flat_map {A B C : Type} (f : B -> list C) (g : A -> list B)
    (l : list A) :
  flat_map f (flat_map g l) = flat_map (fun x => flat_map f (g x)) l.
Proof.
  induction l as [|x l IH]; simpl; [reflexivity|].
  now rewrite flat_map_app, IH.
Qed.

Lemma flat_map_repeat {A : Type} (k : A -> nat) (x : A) (a : nat) :
  flat_map (fun y => repeat y (k y)) (repeat x a) = repeat x (a * k x).
Proof.
  induction a as [|a IH]; simpl; [reflexivity|].
  now rewrite IH, repeat_app.
Qed.

Lemma map_const_repeat {A B : Type} (x : B) (l : list A) :
  map (fun _ => x) l = repeat x (length l).
Proof. induction l; simpl; congruence. Qed.

Lemma flat_map_of_map {A B C : Type} (f : B -> list C) (g : A -> B)
    (l : list A) :
  flat_map f (map g l) = flat_map (fun x => f (g x)) l.
Proof.
  induction l as [|x l IH]; simpl; [reflexivity | now rewrite IH].
Qed.

Lemma merge_left_left_rows {L R A B : Type} (on : L -> R -> bool)
    (out : L -> option R -> A) (h : A -> B) (p : L -> B) (left : list L)
    (right : list R) :
  (forall l o, h (out l o) = p l) ->
  map h (merge_left on out left right)
  = flat_map (fun l => repeat (p l)
                         (Nat.max 1 (length (filter (on l) right)))) left.
Proof.
  intros Hh. unfold merge_left.
  induction left as [|l left IH]; [reflexivity|].
  cbn [flat_map]. rewrite map_app, IH. f_equal.
  destruct (filter (on l) right) as [|r ms].
  - simpl. now rewrite Hh.
  - rewrite map_map.
    rewrite (map_ext _ (fun _ => p l)) by (intros; apply Hh).
    rewrite map_const_repeat. reflexivity.
Qed.

Lemma filter_unique_key {A K : Type} (key : A -> K) (p : A -> bool) (k : K)
    (l : list A) :
  (forall x, p x = true -> key x = k) ->
  NoDup (map key l) -> (length (filter p l) <= 1)%nat.
Proof.
  intros Hp. induction l as [|x l IH]; simpl; intros Hnd; [lia|].
  inversion Hnd as [|? ? Hnotin Hnd']; subst.
  destruct (p x) eqn:E; [|now apply IH].
  assert (Hnil : filter p l = []).
  { apply filter_nil_iff. intros y Hy.
    destruct (p y) eqn:Ey; [|reflexivity].
    exfalso. apply Hnotin. rewrite (Hp x E), <- (Hp y Ey).
    now apply in_map. }
  rewrite Hnil. simpl. lia.
Qed.

Lemma flat_map_singleton {A : Type} (k : A -> nat) (l : list A) :
  (forall x, k x = 1%nat) -> flat_map (fun x => repeat x (k x)) l = l.
Proof.
  intros Hk. induction l as [|x l IH]; simpl; [reflexivity|].
  now rewrite Hk, IH.
Qed.

Lemma flat_map_pointwise_perm {A B : Type} (f g : A -> list B) (l : list A) :
  (forall x, Permutation (f x) (g x)) ->
  Permutation (flat_map f l) (flat_map g l).
Proof.
  intros H. induction l as [|x l IH]; simpl; [constructor|].
  now apply Permutation_app.
Qed.

Lemma merge_left_perm {L R A : Type} (on : L -> R -> bool)
    (out : L -> option R -> A) (left left' : list L) (right right' : list R) :
  Permutation left left' -> Permutation right right' ->
  Permutation (merge_left on out left right)
    (merge_left on out left' right').
Proof.
  intros Hl Hr. unfold merge_left.
  eapply perm_trans; [apply Permutation_flat_map, Hl|].
  apply flat_map_pointwise_perm. intros l.
  pose proof (filter_perm (on l) _ _ Hr) as Hf.
  destruct (filter (on l) right) as [|r ms].
  - apply Permutation_nil in Hf. rewrite Hf. apply Permutation_refl.
  - destruct (filter (on l) right') as [|r' ms'].
    + apply Permutation_sym, Permutation_nil in Hf. discriminate.
    + now apply Permutation_map.
Qed.

Lemma sorted_filter {A : Type} (R : A -> A -> Prop) (f : A -> bool)
    (l : list A) :
  StronglySorted R l -> StronglySorted R (filter f l).
Proof.
  induction 1 as [|x l Hs IH Hall]; simpl; [constructor|].
  destruct (f x); [|assumption].
  constructor; [assumption|].
  rewrite Forall_forall in *. intros y Hy.
  apply filter_In in Hy. now apply Hall.
Qed.

Lemma sorted_nodup_strict (l : list Z) :
  StronglySorted Z.le l -> NoDup l -> StronglySorted Z.lt l.
Proof.
  induction 1 as [|a l Hs IH Hall]; intros Hnd; constructor.
  - apply IH. now inversion Hnd.
  - inversion Hnd as [|? ? Hnotin _]; subst.
    rewrite Forall_forall in *. intros x Hx.
    specialize (Hall x Hx).
    assert (x <> a) by (intros ->; contradiction). lia.
Qed.

Lemma sort_values_strongly {A : Type} (key : A -> Z) (l : list A) :
  StronglySorted (fun a b => key a <= key b)
    (sort_values (fun a b => key a <=? key b) l).
Proof.
  apply Sorted_StronglySorted; [intros a b c; lia|].
  assert (Ht : forall a b : A,
             (key a <=? key b) = true \/ (key b <=? key a) = true)
    by (intros a b; rewrite !Z.leb_le; lia).
  pose proof (sort_values_sorted (fun a b => key a <=? key b) Ht l) as H.
  induction H as [|a l' Hs IH Hhd]; constructor; [assumption|].
  destruct Hhd; constructor. now apply Z.leb_le.
Qed.

Lemma sorted_map {A : Type} (key : A -> Z) (l : list A) :
  StronglySorted (fun a b => key a <= key b) l ->
  StronglySorted Z.le (map key l).
Proof.
  induction 1 as [|a l Hs IH Hall]; simpl; constructor; [assumption|].
  rewrite Forall_forall in *. intros x Hx.
  apply in_map_iff in Hx. destruct Hx as (y & <- & Hy). now apply Hall.
Qed.

Lemma key_injective {A : Type} (key : A -> Z) (l : list A) (a b : A) :
  NoDup (map key l) -> In a l -> In b l -> key a = key b -> a = b.
Proof.
  induction l as [|x l IH]; simpl; intros Hnd Ha Hb E; [contradiction|].
  inversion Hnd as [|? ? Hnotin Hnd']; subst.
  destruct Ha as [<-|Ha], Hb as [<-|Hb]; auto.
  - exfalso. apply Hnotin. rewrite E. now apply in_map.
  - exfalso. apply Hnotin. rewrite <- E. now apply in_map.
Qed.

(** A list with distinct keys has one arrangement in ascending order. *)
Lemma sorted_perm_unique {A : Type} (key : A -> Z) (l l' : list A) :
  Permutation l l' -> NoDup (map key l) ->
  StronglySorted (fun a b => key a <= key b) l ->
  StronglySorted (fun a b => key a <= key b) l' -> l = l'.
Proof.
  revert l'. induction l as [|x l IH]; intros l' Hp Hnd Hs Hs'.
  - apply Permutation_nil in Hp. now subst.
  - destruct l' as [|y l'].
    { apply Permutation_sym, Permutation_nil in Hp. discriminate. }
    assert (Hy : In y (x :: l))
      by (apply (Permutation_in _ (Permutation_sym Hp)); now left).
    assert (Hx : In x (y :: l')) by (apply (Permutation_in _ Hp); now left).
    assert (E : x = y).
    { apply (key_injective key (x :: l)); try assumption; [now left|].
      inversion Hs as [|? ? _ Hall]; inversion Hs' as [|? ? _ Hall']; subst.
      rewrite Forall_forall in Hall, Hall'.
      destruct Hy as [->|Hy]; [reflexivity|].
      destruct Hx as [->|Hx]; [reflexivity|].
      specialize (Hall y Hy). specialize (Hall' x Hx). lia. }
    subst y. f_equal. apply IH.
    + now apply Permutation_cons_inv in Hp.
    + now inversion Hnd.
    + now inversion Hs.
    + now inversion Hs'.
Qed.

Lemma sort_values_perm_unique {A : Type} (key : A -> Z) (l l' : list A) :
  Permutation l l' -> NoDup (map key l) ->
  sort_values (fun a b => key a <=? key b) l
  = sort_values (fun a b => key a <=? key b) l'.
Proof.
  intros Hp Hnd. apply (sorted_perm_unique key).
  - eapply perm_trans; [apply Permutation_sym, sort_values_perm|].
    eapply perm_trans; [exact Hp | apply sort_values_perm].
  - eapply Permutation_NoDup; [|exact Hnd].
    apply Permutation_map, sort_values_perm.
  - apply sort_values_strongly.
  - apply sort_values_strongly.
Qed.

Lemma unique_sorted_sorted (l : list Z) :
  Sorted (fun a b => (a <=? b) = true) (unique_sorted l).
Proof.
  induction l as [|x l IH]; simpl; [constructor|].
  destruct (existsb (Z.eqb x) (unique_sorted l)); [assumption|].
  apply insert_by_sorted; [apply Zleb_total | assumption].
Qed.

Lemma unique_sorted_perm (l l' : list Z) :
  Permutation l l' -> unique_sorted l = unique_sorted l'.
Proof.
  intros Hp.
  assert (Hs : forall k, StronglySorted (fun a b : Z => a <= b)
                           (unique_sorted k)).
  { intros k. apply Sorted_StronglySorted; [intros a b c; lia|].
    pose proof (unique_sorted_sorted k) as H.
    induction H as [|a k' Hs IH Hhd]; constructor; [assumption|].
    destruct Hhd; constructor. now apply Z.leb_le. }
  apply (sorted_perm_unique (fun x => x)); try apply Hs.
  - apply NoDup_Permutation; try apply unique_sorted_NoDup.
    intros x. rewrite !unique_sorted_In. now apply perm_In_iff.
  - rewrite map_id. apply unique_sorted_NoDup.
Qed.

Lemma perm_short {A : Type} (l l' : list A) :
  Permutation l l' -> (length l <= 1)%nat -> l = l'.
Proof.
  intros Hp Hlen. destruct l as [|x [|y l]].
  - apply Permutation_nil in Hp. now subst.
  - apply Permutation_length_1_inv in Hp. now subst.
  - simpl in Hlen. lia.
Qed.

(** ** The int64 column *)

Lemma int64_eq (a b : int64) : signed a = signed b -> a = b.
Proof.
  destruct a as [x Hx], b as [y Hy]. simpl. intros ->.
  f_equal. apply UIP_dec, bool_dec.
Qed.

Lemma wrap64_small (z : Z) : in_int64 z = true -> wrap64 z = z.
Proof.
  unfold in_int64, wrap64. intros H.
  apply andb_true_iff in H. destruct H as [Hlo Hhi].
  apply Z.leb_le in Hlo. apply Z.ltb_lt in Hhi.
  rewrite Z.mod_small; lia.
Qed.

Lemma wrap64_signed (a : int64) : wrap64 (signed a) = signed a.
Proof. apply wrap64_small, in_range. Qed.

Lemma wrap64_add_l (a b : Z) : wrap64 (wrap64 a + b) = wrap64 (a + b).
Proof.
  unfold wrap64. f_equal.
  replace ((a + 2 ^ 63) mod 2 ^ 64 - 2 ^ 63 + b + 2 ^ 63)
    with ((a + 2 ^ 63) mod 2 ^ 64 + b) by lia.
  rewrite Zplus_mod_idemp_l. f_equal. lia.
Qed.

Lemma wrap64_add_r (a b : Z) : wrap64 (a + wrap64 b) = wrap64 (a + b).
Proof. rewrite Z.add_comm, wrap64_add_l. f_equal. lia. Qed.

Lemma wrap64_sub_l (a b : Z) : wrap64 (wrap64 a - b) = wrap64 (a - b).
Proof. unfold Z.sub. apply wrap64_add_l. Qed.

Lemma int64_exact : Exact int64_column.
Proof.
  constructor; cbn.
  - intros a b. f_equal. lia.
  - intros a b c. apply int64_eq. cbn.
    rewrite wrap64_add_l, wrap64_add_r. f_equal. lia.
  - intros a. apply int64_eq. cbn.
    replace (wrap64 0) with 0 by reflexivity. apply wrap64_signed.
  - intros a. apply int64_eq. cbn.
    replace (wrap64 0) with 0 by reflexivity.
    rewrite Z.sub_0_r. apply wrap64_signed.
  - intros s v. apply int64_eq. cbn.
    rewrite wrap64_sub_l.
    replace (wrap64 (signed s + signed v) - signed s - signed v)
      with (wrap64 (signed s + signed v) - (signed s + signed v)) by lia.
    rewrite wrap64_sub_l.
    replace (signed s + signed v - (signed s + signed v)) with 0 by lia.
    reflexivity.
  - reflexivity.
Qed.

(** ** Any column *)

Section AnyColumn.
Context {num : Type} {col : Column num}.

(** *** Dropping the missing values *)

Lemma dropna_In (ts : Series num) (p : Z * num) :
  In p (dropna ts) <-> In p ts /\ isna (snd p) = false.
Proof.
  unfold dropna. rewrite filter_In, negb_true_iff. tauto.
Qed.

Lemma dropna_all (ts : Series num) :
  (forall p, In p ts -> isna (snd p) = false) -> dropna ts = ts.
Proof.
  intros H. unfold dropna. induction ts as [|p ts IH]; simpl; [reflexivity|].
  rewrite (H p (or_introl eq_refl)). simpl. f_equal.
  apply IH. intros q Hq. apply H. now right.
Qed.

Lemma dropna_length (ts : Series num) :
  (length (dropna ts) <= length ts)%nat.
Proof. apply filter_length_le. Qed.

Lemma dropna_ends (ts : Series num) :
  ts <> [] ->
  isna (snd (hd (0, num_zero) ts)) = false ->
  isna (snd (last ts (0, num_zero))) = false ->
  dropna ts <> []
  /\ hd (0, num_zero) (dropna ts) = hd (0, num_zero) ts
  /\ last_date (dropna ts) = last_date ts.
Proof.
  intros Hne Hhd Hlast.
  assert (Hfirst : dropna ts <> []
                   /\ hd (0, num_zero) (dropna ts) = hd (0, num_zero) ts).
  { destruct ts as [|p ts]; [congruence|]. simpl in Hhd.
    unfold dropna. simpl. rewrite Hhd. simpl. split; [discriminate|].
    reflexivity. }
  destruct Hfirst as [H1 H2]. split; [assumption|]. split; [assumption|].
  destruct (exists_last Hne) as (l & p & E). subst ts.
  rewrite last_last in Hlast.
  unfold last_date, dropna. rewrite filter_app. simpl. rewrite Hlast. simpl.
  rewrite !map_app. cbn [map]. now rewrite !last_last.
Qed.

(** *** Weekly buckets *)

Lemma nansum_nil : nansum (@nil num) = num_zero.
Proof. reflexivity. Qed.

Lemma week_buckets_length (total : Z -> num) (lo : Z) (n : nat) :
  length (week_buckets total lo n) = n.
Proof. unfold week_buckets. now rewrite length_map, length_seq. Qed.

Lemma week_buckets_In (total : Z -> num) (lo : Z) (n : nat) (w : Z) (v : num) :
  In (w, v) (week_buckets total lo n) <->
  exists k, (k < n)%nat /\ w = lo + 7 * Z.of_nat k /\ v = total w.
Proof.
  unfold week_buckets. rewrite in_map_iff. split.
  - intros (k & E & Hk). apply in_seq in Hk. simpl in E.
    injection E as <- <-. exists k. repeat split; lia.
  - intros (k & Hk & -> & ->). exists k. split; [reflexivity|].
    apply in_seq. lia.
Qed.

Lemma week_buckets_dates (total : Z -> num) (lo : Z) (n : nat) :
  map fst (week_buckets total lo n)
  = map (fun k => lo + 7 * Z.of_nat k) (seq 0 n).
Proof. unfold week_buckets. rewrite map_map. reflexivity. Qed.

Lemma week_buckets_spaced (total : Z -> num) (lo : Z) (n : nat) :
  weekly_spaced (map fst (week_buckets total lo n)).
Proof.
  intros i Hi. rewrite week_buckets_dates in *.
  rewrite length_map, length_seq in Hi.
  rewrite !nth_map_seq by lia. lia.
Qed.

Lemma week_buckets_ext (f g : Z -> num) (lo : Z) (n : nat) :
  (forall w, f w = g w) -> week_buckets f lo n = week_buckets g lo n.
Proof.
  intros H. unfold week_buckets. apply map_ext. intros k. simpl.
  now rewrite H.
Qed.

(** *** The frame of weeks of a list of dates *)

Lemma week_frame_nonempty (total : Z -> num) (dates : list Z) :
  dates <> [] ->
  week_frame total dates
  = week_buckets total (week_end (list_min dates))
      (Z.to_nat ((week_end (list_max dates) - week_end (list_min dates)) / 7
                 + 1)).
Proof. destruct dates; [congruence | reflexivity]. Qed.

Lemma week_frame_ext (f g : Z -> num) (l1 l2 : list Z) :
  (forall x, In x l1 <-> In x l2) -> (forall w, f w = g w) ->
  week_frame f l1 = week_frame g l2.
Proof.
  intros Hin Hfg. destruct l1 as [|x l1].
  - destruct l2 as [|y l2]; [reflexivity|].
    exfalso. apply (Hin y). now left.
  - assert (H1 : x :: l1 <> []) by discriminate.
    assert (H2 : l2 <> []).
    { intros ->. apply (Hin x). now left. }
    rewrite (week_frame_nonempty _ _ H1), (week_frame_nonempty _ _ H2).
    rewrite <- (list_min_ext _ _ H1 Hin), <- (list_max_ext _ _ H1 Hin).
    now apply week_buckets_ext.
Qed.


Lemma week_frame_In (total : Z -> num) (dates : list Z) (w : Z) (v : num) :
  In (w, v) (week_frame total dates) -> v = total w.
Proof.
  destruct dates as [|x l]; [intros []|].
  rewrite week_frame_nonempty by discriminate.
  intros H. apply week_buckets_In in H. now destruct H as (k & _ & _ & ->).
Qed.

Lemma week_frame_spaced (total : Z -> num) (dates : list Z) :
  weekly_spaced (map fst (week_frame total dates)).
Proof.
  destruct dates as [|x l].
  - intros i Hi. simpl in Hi. lia.
  - rewrite week_frame_nonempty by discriminate. apply week_buckets_spaced.
Qed.

(** *** The frame of weeks of the rows of a key *)

Lemma filter_key_In (data : list (Row num)) (s d : Z) (r : Row num) :
  In r (filter_key data s d) <-> In r data /\ Store r = s /\ Dept r = d.
Proof.
  unfold filter_key. rewrite filter_In, andb_true_iff, !Z.eqb_eq. tauto.
Qed.

Lemma week_rows_key (data : list (Row num)) (s d w : Z) :
  filter (fun r => week_end (Date r) =? w) (filter_key data s d)
  = week_rows data s d w.
Proof. unfold filter_key, week_rows. now rewrite filter_filter. Qed.

Lemma day_rows_key (data : list (Row num)) (s d x : Z) :
  filter (fun r => Date r =? x) (filter_key data s d) = day_rows data s d x.
Proof. unfold filter_key, day_rows. now rewrite filter_filter. Qed.

Lemma week_rows_In (data : list (Row num)) (s d w : Z) (r : Row num) :
  In r (week_rows data s d w)
  <-> In r (filter_key data s d) /\ week_end (Date r) = w.
Proof.
  rewrite <- week_rows_key, filter_In, Z.eqb_eq. tauto.
Qed.

Lemma dates_bounds (sd : list (Row num)) (r : Row num) :
  In r sd ->
  list_min (map Date sd) <= Date r <= list_max (map Date sd).
Proof.
  intros Hr.
  assert (Hne : map Date sd <> []).
  { destruct sd; [contradiction | discriminate]. }
  destruct (list_min_spec _ Hne) as [_ Hmin].
  destruct (list_max_spec _ Hne) as [_ Hmax].
  split; [apply Hmin | apply Hmax]; now apply in_map.
Qed.

Lemma key_rows_extremes (sd : list (Row num)) :
  sd <> [] ->
  exists r1 r2,
    In r1 sd /\ In r2 sd
    /\ Date r1 = list_min (map Date sd) /\ Date r2 = list_max (map Date sd)
    /\ forall r, In r sd -> Date r1 <= Date r <= Date r2.
Proof.
  intros Hne.
  assert (Hm : map Date sd <> []).
  { intros E. now apply map_eq_nil in E. }
  destruct (list_min_spec _ Hm) as [Hmin _].
  destruct (list_max_spec _ Hm) as [Hmax _].
  apply in_map_iff in Hmin. destruct Hmin as (r1 & E1 & H1).
  apply in_map_iff in Hmax. destruct Hmax as (r2 & E2 & H2).
  exists r1, r2. repeat split; try assumption;
    rewrite ?E1, ?E2; now apply dates_bounds.
Qed.

Lemma week_frame_member (total : Z -> num) (sd : list (Row num)) (w : Z)
    (r1 r2 : Row num) :
  In r1 sd -> In r2 sd -> w mod 7 = 3 ->
  week_end (Date r1) <= w <= week_end (Date r2) ->
  In (w, total w) (week_frame total (map Date sd)).
Proof.
  intros H1 H2 Hsun Hw.
  assert (Hm : map Date sd <> []).
  { destruct sd; [contradiction | discriminate]. }
  rewrite (week_frame_nonempty _ _ Hm).
  set (lo := week_end (list_min (map Date sd))).
  set (hi := week_end (list_max (map Date sd))).
  assert (Hlo : lo <= week_end (Date r1))
    by (apply week_end_mono, (dates_bounds _ _ H1)).
  assert (Hhi : week_end (Date r2) <= hi)
    by (apply week_end_mono, (dates_bounds _ _ H2)).
  pose proof (week_end_sunday (list_min (map Date sd))) as Hslo.
  fold lo in Hslo.
  assert (Hq : w - lo = 7 * ((w - lo) / 7)).
  { rewrite Z.mod_eq in Hsun, Hslo by lia.
    pose proof (Z.div_mod (w - lo) 7). pose proof (Z.mod_pos_bound (w - lo) 7).
    lia. }
  set (q := (w - lo) / 7) in *.
  apply week_buckets_In. exists (Z.to_nat q).
  assert (q <= (hi - lo) / 7) by (apply Z.div_le_lower_bound; lia).
  split; [lia|]. split; [lia | reflexivity].
Qed.

Lemma week_frame_covers (total : Z -> num) (data : list (Row num)) (s d : Z) :
  covers_weeks data s d
    (map fst (week_frame total (map Date (filter_key data s d)))).
Proof.
  split; [apply week_frame_spaced|].
  intros r Hr Hs Hd.
  assert (Hin : In (week_end (Date r), total (week_end (Date r)))
                  (week_frame total (map Date (filter_key data s d)))).
  { apply (week_frame_member total _ _ r r);
      try (now apply filter_key_In); [apply week_end_sunday | lia]. }
  apply (in_map fst) in Hin. exact Hin.
Qed.

Lemma week_frame_ends (total : Z -> num) (data : list (Row num)) (s d : Z) :
  filter_key data s d <> [] ->
  ends_observed data s d
    (week_frame total (map Date (filter_key data s d))).
Proof.
  set (sd := filter_key data s d). intros Hne.
  assert (Hm : map Date sd <> []).
  { intros E. now apply map_eq_nil in E. }
  rewrite (week_frame_nonempty _ _ Hm).
  destruct (list_min_spec _ Hm) as [Hmin Hle].
  destruct (list_max_spec _ Hm) as [Hmax _].
  destruct (bucket_count _ _ (Hle _ Hmax)) as (n & -> & Hhi).
  apply in_map_iff in Hmin. destruct Hmin as (rmin & Emin & Hrmin).
  apply in_map_iff in Hmax. destruct Hmax as (rmax & Emax & Hrmax).
  apply filter_key_In in Hrmin, Hrmax.
  repeat split.
  - unfold week_buckets. simpl. discriminate.
  - exists rmin. rewrite Emin. unfold week_buckets. simpl.
    repeat split; try tauto. f_equal. lia.
  - exists rmax. rewrite Emax. unfold last_date.
    rewrite week_buckets_dates, last_map_seq.
    repeat split; try tauto. lia.
Qed.

Lemma week_frame_len (total : Z -> num) (sd : list (Row num)) :
  sd <> [] ->
  len (week_frame total (map Date sd))
  = (week_end (list_max (map Date sd)) - week_end (list_min (map Date sd)))
    / 7 + 1.
Proof.
  intros Hne.
  assert (Hm : map Date sd <> []).
  { intros E. now apply map_eq_nil in E. }
  rewrite (week_frame_nonempty _ _ Hm).
  unfold len. rewrite week_buckets_length.
  destruct (key_rows_extremes sd Hne) as (r1 & r2 & H1 & H2 & E1 & E2 & Hb).
  rewrite <- E1, <- E2.
  assert (Date r1 <= Date r2) by (apply (Hb r2 H2)).
  pose proof (week_end_mono _ _ H) as Hmono.
  assert (0 <= (week_end (Date r2) - week_end (Date r1)) / 7)
    by (apply Z.div_pos; lia).
  lia.
Qed.

(** *** The two constructions as frames *)

Lemma resampled_app_frame (sd : list (Row num)) :
  resampled_app sd = week_frame (app_week_sum sd) (map Date sd).
Proof.
  unfold resampled_app, resample_W_sum, app_week_sum.
  apply week_frame_ext; [|reflexivity].
  intros x. unfold set_index_Date. rewrite map_map. cbn [fst].
  symmetry. apply perm_In_iff, Permutation_map, sort_values_perm.
Qed.

Lemma groupby_dates (sd : list (Row num)) :
  map fst (groupby_Date_sum sd) = unique_sorted (map Date sd).
Proof.
  unfold groupby_Date_sum. rewrite map_map. apply map_id.
Qed.

Lemma sort_index_dates (sd : list (Row num)) (x : Z) :
  In x (map fst (sort_index (groupby_Date_sum sd))) <-> In x (map Date sd).
Proof.
  unfold sort_index.
  rewrite <- (perm_In_iff _ _ (Permutation_map fst
                                 (sort_values_perm _ (groupby_Date_sum sd)))).
  rewrite groupby_dates. apply unique_sorted_In.
Qed.

Lemma weekly_series_sales_frame (sd : list (Row num)) :
  weekly_series_sales sd = week_frame (sales_week_sum sd) (map Date sd).
Proof.
  unfold weekly_series_sales, resample_W_sum, sales_week_sum.
  apply week_frame_ext; [|reflexivity].
  intros x. apply sort_index_dates.
Qed.

(** *** What stands in a bucket *)

Lemma app_week_sum_rows (data : list (Row num)) (s d w : Z) :
  summed_by_row data s d w (app_week_sum (filter_key data s d) w).
Proof.
  set (sd := filter_key data s d).
  set (sorted_sd := sort_values (fun a b => Date a <=? Date b) sd).
  exists (filter (fun r => week_end (Date r) =? w) sorted_sd).
  split; [|split].
  - rewrite <- week_rows_key. apply filter_perm, Permutation_sym.
    apply sort_values_perm.
  - apply sorted_filter. apply (sort_values_strongly Date).
  - unfold app_week_sum, week_sum, set_index_Date. fold sd sorted_sd.
    now rewrite filter_map_comm, map_map.
Qed.

Lemma sales_week_sum_days (data : list (Row num)) (s d w : Z) :
  summed_by_day data s d w (sales_week_sum (filter_key data s d) w).
Proof.
  set (sd := filter_key data s d).
  set (g := groupby_Date_sum sd).
  set (ts := sort_index g).
  set (picked := filter (fun p : Z * num => week_end (fst p) =? w) ts).
  assert (Hp : Permutation g ts) by apply sort_values_perm.
  assert (Hval : forall p, In p ts ->
                   snd p = nansum (map Weekly_Sales
                                     (day_rows data s d (fst p)))).
  { intros p Hin. apply (perm_In_iff _ _ Hp) in Hin.
    unfold g, groupby_Date_sum in Hin. apply in_map_iff in Hin.
    destruct Hin as (x & <- & _). cbn [fst snd].
    unfold sd. now rewrite day_rows_key. }
  exists (map fst picked). split; [|split].
  - apply sorted_nodup_strict.
    + apply (sorted_map fst). unfold picked. apply sorted_filter.
      apply (sort_values_strongly fst).
    + unfold picked.
      rewrite <- (filter_map_comm (fun x => week_end x =? w) fst).
      apply NoDup_filter.
      eapply Permutation_NoDup; [apply Permutation_map, Hp|].
      unfold g. rewrite groupby_dates. apply unique_sorted_NoDup.
  - intros x. unfold picked.
    rewrite <- (filter_map_comm (fun x => week_end x =? w) fst).
    rewrite filter_In, Z.eqb_eq. unfold ts, g. rewrite sort_index_dates.
    rewrite in_map_iff. split.
    + intros ((r & E & Hr) & Hw). exists r. split; [|assumption].
      apply week_rows_In. split; [assumption | congruence].
    + intros (r & Hr & E). apply week_rows_In in Hr. destruct Hr as [Hr Hw].
      split; [exists r; tauto | congruence].
  - unfold sales_week_sum, week_sum. fold sd g ts picked.
    f_equal. rewrite map_map. apply map_ext_in.
    intros p Hin. apply Hval. unfold picked in Hin.
    now apply filter_In in Hin.
Qed.

(** An empty week holds 0 in both constructions. *)
Lemma empty_week_sums (sd : list (Row num)) (w : Z) :
  (forall r, In r sd -> week_end (Date r) <> w) ->
  app_week_sum sd w = num_zero /\ sales_week_sum sd w = num_zero.
Proof.
  intros Hmiss. split.
  - unfold app_week_sum, week_sum, set_index_Date.
    rewrite filter_map_comm. cbn [fst].
    replace (filter _ _) with (@nil (Row num)); [reflexivity|].
    symmetry. apply filter_nil_iff. intros r Hr.
    apply sort_values_In in Hr. apply Z.eqb_neq. now apply Hmiss.
  - unfold sales_week_sum, week_sum.
    replace (filter _ _) with (@nil (Z * num)); [reflexivity|].
    symmetry. apply filter_nil_iff. intros p Hp.
    apply Z.eqb_neq. intros E.
    assert (Hin : In (fst p) (map Date sd)).
    { apply sort_index_dates. now apply in_map. }
    apply in_map_iff in Hin. destruct Hin as (r & Er & Hr).
    apply (Hmiss r Hr). congruence.
Qed.

(** *** Rows with distinct dates *)

Lemma resampled_app_distinct (sd sd' : list (Row num)) :
  Permutation sd sd' -> NoDup (map Date sd) ->
  resampled_app sd = resampled_app sd'.
Proof.
  intros Hp Hnd. unfold resampled_app.
  now rewrite (sort_values_perm_unique Date sd sd' Hp Hnd).
Qed.

Lemma groupby_distinct (sd sd' : list (Row num)) :
  Permutation sd sd' -> NoDup (map Date sd) ->
  groupby_Date_sum sd = groupby_Date_sum sd'.
Proof.
  intros Hp Hnd. unfold groupby_Date_sum.
  rewrite (unique_sorted_perm (map Date sd) (map Date sd'))
    by now apply Permutation_map.
  apply map_ext. intros x. do 3 f_equal.
  apply perm_short; [now apply filter_perm|].
  apply (filter_unique_key Date _ x); [|exact Hnd].
  intros r Hr. now apply Z.eqb_eq in Hr.
Qed.

Lemma weekly_series_distinct (sd sd' : list (Row num)) :
  Permutation sd sd' -> NoDup (map Date sd) ->
  weekly_series_app sd = weekly_series_app sd'
  /\ weekly_series_sales sd = weekly_series_sales sd'.
Proof.
  intros Hp Hnd. unfold weekly_series_app, weekly_series_sales.
  now rewrite (resampled_app_distinct sd sd' Hp Hnd),
    (groupby_distinct sd sd' Hp Hnd).
Qed.

(** *** The weekly totals of a key *)

Lemma weekly_totals_series (data : list (Row num)) (s d : Z) :
  weekly_series_of data s d (weekly_totals (filter_key data s d)).
Proof.
  unfold weekly_totals. split.
  - intros w v Hin. apply week_frame_In in Hin. subst v.
    unfold rows_week_sum, week_total. now rewrite week_rows_key.
  - apply week_frame_covers.
Qed.

(** *** The forecaster *)

Lemma forecast_rejects (res : HWResults num) (h : Z) :
  h < 1 ->
  forecast res h = inl "InvalidParameter: horizon must be at least 1"%string.
Proof.
  intros H. unfold forecast.
  destruct (Z.ltb_spec h 1); [reflexivity | lia].
Qed.

Lemma forecast_returns (res : HWResults num) (h : Z) :
  1 <= h ->
  exists fc, forecast res h = inr fc /\ forecast_of (endog res) h fc.
Proof.
  intros H. unfold forecast.
  destruct (Z.ltb_spec h 1); [lia|].
  eexists. split; [reflexivity|].
  set (g := fun k : nat => _).
  assert (Hlen : length (map g (seq 1 (Z.to_nat h))) = Z.to_nat h)
    by now rewrite length_map, length_seq.
  repeat split.
  - unfold len. rewrite Hlen. lia.
  - intros k Hk. rewrite Hlen in Hk. rewrite nth_map_seq by assumption.
    unfold g. simpl fst. lia.
  - intros k Hk. rewrite length_map, Hlen in Hk.
    rewrite map_map, !nth_map_seq by lia. unfold g. simpl fst. lia.
  - destruct (Z.to_nat h) as [|n] eqn:E; [lia|]. reflexivity.
Qed.

Lemma forecast_inr (res : HWResults num) (h : Z) (fc : Forecast) :
  forecast res h = inr fc -> 1 <= h /\ forecast_of (endog res) h fc.
Proof.
  intros E. destruct (Z.lt_ge_cases h 1) as [Hlt|Hge].
  - rewrite (forecast_rejects _ _ Hlt) in E. discriminate.
  - destruct (forecast_returns res h Hge) as (fc' & E' & Hok).
    rewrite E in E'. injection E' as <-. auto.
Qed.

(** *** What a successful run went through *)

Lemma generate_forecast_success hw_fit (data : list (Row num)) s d h m ts fc df
    msg :
  generate_forecast hw_fit data s d h m = (Some ts, fc, df, msg) ->
  filter_key data s d <> []
  /\ ts = weekly_series_app (filter_key data s d)
  /\ min_points m <= len ts
  /\ exists p f,
       hw_fit (mkConfig false m None) ts = inr p
       /\ forecast (mkResults ts p) h = inr f
       /\ fc = Some f /\ df = Some f /\ msg = MsgSuccess h s d.
Proof.
  unfold generate_forecast, fit_and_forecast, failure, min_points.
  destruct (empty (filter_key data s d)) eqn:Ee; [discriminate|].
  apply empty_false in Ee.
  set (ts0 := weekly_series_app (filter_key data s d)).
  destruct (Z.ltb_spec (len ts0) (Z.max (2 * m) (m + 5))); [discriminate|].
  destruct (hw_fit (mkConfig false m None) ts0) as [e|p] eqn:Ef;
    [discriminate|].
  destruct (forecast (mkResults ts0 p) h) as [e|f] eqn:Ec; [discriminate|].
  intros E. injection E as <- <- <- <-.
  repeat split; try assumption. exists p, f. auto.
Qed.

Lemma run_forecast_plot py_int hw_fit (data : list (Row num)) sv dv wv ts fc
    s d h :
  run_forecast py_int hw_fit data sv dv wv = plot ts fc s d h ->
  request py_int sv dv wv s d h /\ 0 < h
  /\ filter_key data s d <> []
  /\ ts = weekly_series_sales (filter_key data s d)
  /\ 20 <= len ts
  /\ exists p,
       hw_fit (mkConfig true 52 (Some (1 # 5, 1 # 5, 1 # 5)%Q)) ts = inr p
       /\ forecast (mkResults ts p) h = inr fc.
Proof.
  unfold run_forecast, fit_and_plot, request.
  destruct (String.eqb_spec sv ""); [discriminate|].
  destruct (String.eqb_spec dv ""); [discriminate|]. cbn [orb].
  destruct (py_int sv) as [s0|]; [|discriminate].
  destruct (py_int dv) as [d0|]; [|discriminate].
  destruct (py_int wv) as [h0|]; [|discriminate].
  destruct (Z.leb_spec h0 0); [discriminate|].
  destruct (empty (filter_key data s0 d0)) eqn:Ee; [discriminate|].
  apply empty_false in Ee.
  set (ts0 := weekly_series_sales (filter_key data s0 d0)).
  destruct (Z.ltb_spec (len ts0) 20); [discriminate|].
  destruct (hw_fit _ ts0) as [e|p] eqn:Ef; [discriminate|].
  destruct (forecast (mkResults ts0 p) h0) as [e|f] eqn:Ec; [discriminate|].
  intros E. injection E as <- <- <- <- <-.
  repeat split; try assumption. exists p. auto.
Qed.

End AnyColumn.

(** ** A column with exact arithmetic *)

Section ExactColumn.
Context {num : Type} {col : Column num} (exact : Exact col).

Lemma add_zero_r (a : num) : num_add a num_zero = a.
Proof. rewrite (add_comm exact). apply (add_zero_l exact). Qed.

Lemma add_swap (a b c d : num) :
  num_add (num_add a b) (num_add c d) = num_add (num_add a c) (num_add b d).
Proof.
  rewrite <- (add_assoc exact a b), (add_assoc exact b c d).
  rewrite (add_comm exact b c), <- (add_assoc exact c b d).
  apply (add_assoc exact).
Qed.

(** The compensation stays 0, so the kernel adds term by term. *)
Lemma sum_step_exact (s v : num) :
  sum_step (s, num_zero) v = (num_add s v, num_zero).
Proof.
  unfold sum_step.
  rewrite (no_nan exact v), (sub_zero_r exact), (no_rounding exact).
  now rewrite zero_is_number.
Qed.

Lemma fold_sum_step (cs : list num) (s : num) :
  fold_left sum_step cs (s, num_zero) = (fold_left num_add cs s, num_zero).
Proof.
  revert s. induction cs as [|c cs IH]; intros s; [reflexivity|].
  cbn [fold_left]. rewrite sum_step_exact. apply IH.
Qed.

Lemma nansum_total (cs : list num) : nansum cs = total cs.
Proof.
  unfold nansum, total. rewrite fold_sum_step. cbn [fst].
  apply fold_symmetric.
  - apply (add_assoc exact).
  - intros y. apply (add_comm exact).
Qed.

Lemma total_app (l1 l2 : list num) :
  total (l1 ++ l2) = num_add (total l1) (total l2).
Proof.
  induction l1 as [|c l1 IH]; cbn.
  - symmetry. apply (add_zero_l exact).
  - fold (total (l1 ++ l2)) (total l1). rewrite IH. apply (add_assoc exact).
Qed.

Lemma total_perm (l1 l2 : list num) :
  Permutation l1 l2 -> total l1 = total l2.
Proof.
  induction 1 as [| x l l' _ IH | x y l | l l' l'' _ IH1 _ IH2]; cbn.
  - reflexivity.
  - fold (total l) (total l'). now rewrite IH.
  - fold (total l).
    rewrite !(add_assoc exact). f_equal. apply (add_comm exact).
  - congruence.
Qed.

Lemma total_zeros {A : Type} (l : list A) :
  total (map (fun _ => num_zero) l) = num_zero.
Proof.
  induction l as [|x l IH]; cbn; [reflexivity|].
  fold (total (map (fun _ : A => num_zero) l)). rewrite IH.
  apply (add_zero_l exact).
Qed.

Lemma total_map_add {A : Type} (f g : A -> num) (l : list A) :
  total (map (fun x => num_add (f x) (g x)) l)
  = num_add (total (map f l)) (total (map g l)).
Proof.
  induction l as [|x l IH]; cbn.
  - symmetry. apply (add_zero_l exact).
  - fold (total (map (fun x => num_add (f x) (g x)) l))
         (total (map f l)) (total (map g l)).
    rewrite IH. apply add_swap.
Qed.

Lemma total_indicator (x : Z) (c : num) (ks : list Z) :
  NoDup ks ->
  total (map (fun k => if x =? k then c else num_zero) ks)
  = if existsb (Z.eqb x) ks then c else num_zero.
Proof.
  induction 1 as [|k ks Hk Hnd IH]; cbn; [reflexivity|].
  fold (total (map (fun k => if x =? k then c else num_zero) ks)).
  rewrite IH. destruct (Z.eqb_spec x k) as [->|Hne]; cbn.
  - destruct (existsb (Z.eqb k) ks) eqn:E; [|apply add_zero_r].
    apply existsb_eqb_In in E. contradiction.
  - apply (add_zero_l exact).
Qed.

(** Summing by date and then over the dates is summing the rows. *)
Lemma group_sum (P : Z -> bool) (keys : list Z) (sd : list (Row num)) :
  NoDup keys ->
  (forall r, In r sd -> In (Date r) keys) ->
  total (map (fun x => total (map Weekly_Sales
                                (filter (fun r => Date r =? x) sd)))
           (filter P keys))
  = total (map Weekly_Sales (filter (fun r => P (Date r)) sd)).
Proof.
  intros Hnd. induction sd as [|r sd IH]; intros Hin.
  - cbn. apply total_zeros.
  - assert (Hr : In (Date r) keys) by (apply Hin; now left).
    assert (IH' := IH (fun r' H => Hin r' (or_intror H))). clear IH.
    transitivity
      (total (map (fun x =>
                     num_add (if Date r =? x then Weekly_Sales r
                              else num_zero)
                       (total (map Weekly_Sales
                                 (filter (fun r' => Date r' =? x) sd))))
                (filter P keys))).
    + f_equal. apply map_ext. intros x.
      cbn [filter]. destruct (Date r =? x).
      * reflexivity.
      * symmetry. apply (add_zero_l exact).
    + rewrite total_map_add, IH'.
      rewrite total_indicator by now apply NoDup_filter.
      rewrite existsb_filter by assumption.
      cbn [filter]. destruct (P (Date r)).
      * reflexivity.
      * apply (add_zero_l exact).
Qed.

Lemma app_week_sum_total (sd : list (Row num)) (w : Z) :
  app_week_sum sd w = rows_week_sum sd w.
Proof.
  unfold app_week_sum, week_sum, rows_week_sum, set_index_Date.
  rewrite nansum_total, filter_map_comm, map_map. cbn [fst snd].
  apply total_perm, Permutation_map, filter_perm, Permutation_sym.
  apply sort_values_perm.
Qed.

Lemma sales_week_sum_total (sd : list (Row num)) (w : Z) :
  sales_week_sum sd w = rows_week_sum sd w.
Proof.
  unfold sales_week_sum, week_sum. rewrite nansum_total.
  transitivity
    (total (map snd (filter (fun p : Z * num => week_end (fst p) =? w)
                       (groupby_Date_sum sd)))).
  { apply total_perm, Permutation_map, filter_perm, Permutation_sym.
    apply sort_values_perm. }
  unfold groupby_Date_sum, rows_week_sum.
  rewrite filter_map_comm, map_map. cbn [fst snd].
  rewrite (map_ext _ (fun x => total (map Weekly_Sales
                                        (filter (fun r => Date r =? x) sd))))
    by (intros; apply nansum_total).
  apply (group_sum (fun x => week_end x =? w)).
  - apply unique_sorted_NoDup.
  - intros r Hr. apply unique_sorted_In. now apply in_map.
Qed.

Lemma dropna_exact (ts : Series num) : dropna ts = ts.
Proof. apply dropna_all. intros p _. apply (no_nan exact). Qed.

Lemma weekly_series_app_totals (sd : list (Row num)) :
  weekly_series_app sd = weekly_totals sd.
Proof.
  unfold weekly_series_app, weekly_totals.
  rewrite dropna_exact, resampled_app_frame.
  apply week_frame_ext; [tauto | apply app_week_sum_total].
Qed.

Lemma weekly_series_sales_totals (sd : list (Row num)) :
  weekly_series_sales sd = weekly_totals sd.
Proof.
  unfold weekly_totals. rewrite weekly_series_sales_frame.
  apply week_frame_ext; [tauto | apply sales_week_sum_total].
Qed.

Lemma rows_week_sum_perm (sd sd' : list (Row num)) (w : Z) :
  Permutation sd sd' -> rows_week_sum sd w = rows_week_sum sd' w.
Proof.
  intros H. unfold rows_week_sum.
  apply total_perm, Permutation_map, filter_perm, H.
Qed.

Lemma weekly_totals_perm (sd sd' : list (Row num)) :
  Permutation sd sd' -> weekly_totals sd = weekly_totals sd'.
Proof.
  intros Hp. unfold weekly_totals. apply week_frame_ext.
  - apply perm_In_iff, Permutation_map, Hp.
  - intros w. now apply rows_week_sum_perm.
Qed.

Lemma generate_forecast_key_rows hw_fit (data data' : list (Row num)) s d h
    m :
  Permutation (filter_key data s d) (filter_key data' s d) ->
  generate_forecast hw_fit data s d h m
  = generate_forecast hw_fit data' s d h m.
Proof.
  intros Hp. unfold generate_forecast.
  rewrite !weekly_series_app_totals.
  now rewrite (empty_perm _ _ Hp), (weekly_totals_perm _ _ Hp).
Qed.

Lemma run_forecast_key_rows py_int hw_fit (data data' : list (Row num)) sv dv
    wv :
  (forall s d, py_int sv = Some s -> py_int dv = Some d ->
               Permutation (filter_key data s d) (filter_key data' s d)) ->
  run_forecast py_int hw_fit data sv dv wv
  = run_forecast py_int hw_fit data' sv dv wv.
Proof.
  intros Hp. unfold run_forecast.
  destruct ((sv =? "")%string || (dv =? "")%string); [reflexivity|].
  destruct (py_int sv) as [s|]; [|reflexivity].
  destruct (py_int dv) as [d|]; [|reflexivity].
  specialize (Hp s d eq_refl eq_refl).
  rewrite !weekly_series_sales_totals.
  now rewrite (empty_perm _ _ Hp), (weekly_totals_perm _ _ Hp).
Qed.

Lemma train_week_total_perm (t1 t2 : list (Train.t num)) (s d w : Z) :
  Permutation t1 t2 -> train_week_total t1 s d w = train_week_total t2 s d w.
Proof.
  intros H. unfold train_week_total.
  apply total_perm, Permutation_map, filter_perm, H.
Qed.

End ExactColumn.

(** On the int64 column the sum of a list is the sum of its values modulo
    2^64, read as a signed number. *)
Lemma signed_total (cs : list int64) :
  signed (total (col := int64_column) cs)
  = wrap64 (fold_right Z.add 0 (map signed cs)).
Proof.
  induction cs as [|c cs IH]; [reflexivity|].
  cbn [total fold_right map].
  change (wrap64 (signed c
                  + signed (total (col := int64_column) cs))
          = wrap64 (signed c + fold_right Z.add 0 (map signed cs))).
  now rewrite IH, wrap64_add_r.
Qed.

(** * The entry points *)

Section EntryPoints.
Context {num : Type} {col : Column num}.

(** ** The weekly series handed to the fitter *)

(** C1, as the code has it.  Whenever either entry point gets as far as a
    forecast: in sales.py the dates of the fitted series are seven days
    apart and hold the week of every row of the key, and each value is the
    pandas sum, over the days of its week in ascending order, of the pandas
    sums of the rows of each day; in app.py the fitted series is the frame
    with these dates, each week holding the pandas sum of the rows of the key
    in that week in ascending order of date, without the weeks whose sum is
    NaN.  On a column with exact arithmetic (int64, modulo 2^64) every value
    is the sum of the Weekly_Sales of the rows of the key in its week, in
    both, and no week is missing. *)
Theorem weekly_series_sums_weeks py_int hw_fit (data : list (Row num)) :
  (forall s d h m ts fc df msg,
      generate_forecast hw_fit data s d h m = (Some ts, fc, df, msg) ->
      let full := resampled_app (filter_key data s d) in
      ts = dropna full
      /\ covers_weeks data s d (map fst full)
      /\ (forall w v, In (w, v) full -> summed_by_row data s d w v))
  /\ (forall sv dv wv ts fc s d h,
         run_forecast py_int hw_fit data sv dv wv = plot ts fc s d h ->
         covers_weeks data s d (map fst ts)
         /\ (forall w v, In (w, v) ts -> summed_by_day data s d w v))
  /\ (Exact col ->
      (forall s d h m ts fc df msg,
          generate_forecast hw_fit data s d h m = (Some ts, fc, df, msg) ->
          weekly_series_of data s d ts)
      /\ (forall sv dv wv ts fc s d h,
             run_forecast py_int hw_fit data sv dv wv = plot ts fc s d h ->
             weekly_series_of data s d ts)).
Proof.
  split; [|split].
  - intros s d h m ts fc df msg E full.
    apply generate_forecast_success in E. destruct E as (_ & -> & _).
    split; [reflexivity|]. subst full. rewrite resampled_app_frame. split.
    + apply week_frame_covers.
    + intros w v Hin. apply week_frame_In in Hin. subst v.
      apply app_week_sum_rows.
  - intros sv dv wv ts fc s d h E.
    apply run_forecast_plot in E. destruct E as (_ & _ & _ & -> & _).
    rewrite weekly_series_sales_frame. split.
    + apply week_frame_covers.
    + intros w v Hin. apply week_frame_In in Hin. subst v.
      apply sales_week_sum_days.
  - intros exact. split.
    + intros s d h m ts fc df msg E.
      apply generate_forecast_success in E. destruct E as (_ & -> & _).
      rewrite (weekly_series_app_totals exact). apply weekly_totals_series.
    + intros sv dv wv ts fc s d h E.
      apply run_forecast_plot in E. destruct E as (_ & _ & _ & -> & _).
      rewrite (weekly_series_sales_totals exact). apply weekly_totals_series.
Qed.

(** C4, as the code has it.  The series sales.py fits begins and ends with a
    week in which the key has a source row.  The series app.py fits is the
    resampled series, which begins and ends so, without its NaN weeks: it
    begins and ends with an observed week whenever the sums of the first and
    of the last week of the resampled series are numbers, and always on a
    column with exact arithmetic. *)
Theorem weekly_series_ends_observed py_int hw_fit (data : list (Row num)) :
  (forall s d h m ts fc df msg,
      generate_forecast hw_fit data s d h m = (Some ts, fc, df, msg) ->
      let full := resampled_app (filter_key data s d) in
      ts = dropna full
      /\ ends_observed data s d full
      /\ (isna (snd (hd (0, num_zero) full)) = false ->
          isna (snd (last full (0, num_zero))) = false ->
          ends_observed data s d ts)
      /\ (Exact col -> ends_observed data s d ts))
  /\ (forall sv dv wv ts fc s d h,
         run_forecast py_int hw_fit data sv dv wv = plot ts fc s d h ->
         ends_observed data s d ts).
Proof.
  split.
  - intros s d h m ts fc df msg E full.
    apply generate_forecast_success in E. destruct E as (Hne & -> & _).
    assert (Hfull : ends_observed data s d full).
    { subst full. rewrite resampled_app_frame. now apply week_frame_ends. }
    assert (Hkept : isna (snd (hd (0, num_zero) full)) = false ->
                    isna (snd (last full (0, num_zero))) = false ->
                    ends_observed data s d (dropna full)).
    { intros Hhd Hlast. destruct Hfull as (Hn & Hfirst & Hlst).
      destruct (dropna_ends full Hn Hhd Hlast) as (Hn' & Ehd & Elast).
      unfold ends_observed. rewrite Ehd, Elast. auto. }
    split; [reflexivity|]. split; [exact Hfull|]. split; [exact Hkept|].
    intros exact. apply Hkept; apply (no_nan exact).
  - intros sv dv wv ts fc s d h E.
    apply run_forecast_plot in E. destruct E as (_ & _ & Hne & -> & _).
    rewrite weekly_series_sales_frame. now apply week_frame_ends.
Qed.


(** C3. For every fitted state, every history and every horizon h >= 1 the
    forecaster returns exactly h points, the k-th dated 7k days after the
    last historical date, hence seven days apart and starting one week after
    the history; and the forecast either entry point delivers is of this
    shape for the horizon it was asked for. *)
Theorem forecast_has_h_weekly_points py_int hw_fit (data : list (Row num)) :
  (forall (ts : Series num) p h, 1 <= h ->
      exists fc, forecast (mkResults ts p) h = inr fc /\ forecast_of ts h fc)
  /\ (forall s d h m ts fc df msg,
         generate_forecast hw_fit data s d h m = (Some ts, Some fc, df, msg) ->
         forecast_of ts h fc /\ df = Some fc)
  /\ (forall sv dv wv ts fc s d h,
         run_forecast py_int hw_fit data sv dv wv = plot ts fc s d h ->
         forecast_of ts h fc).
Proof.
  split; [|split].
  - intros ts p h Hh. apply (forecast_returns (mkResults ts p) h Hh).
  - intros s d h m ts fc df msg E.
    apply generate_forecast_success in E.
    destruct E as (_ & _ & _ & p & f & _ & Ef & Efc & -> & _).
    injection Efc as ->. split; [|reflexivity].
    now apply (forecast_inr (mkResults ts p)).
  - intros sv dv wv ts fc s d h E.
    apply run_forecast_plot in E.
    destruct E as (_ & _ & _ & _ & _ & p & _ & Ef).
    now apply (forecast_inr (mkResults ts p)).
Qed.
(** ** Validation *)

Lemma absent_filter_key (data : list (Row num)) (s d : Z) :
  absent data s d <-> filter_key data s d = [].
Proof.
  split.
  - intros H. destruct (filter_key data s d) as [|r l] eqn:E; [reflexivity|].
    assert (Hr : In r (filter_key data s d)) by (rewrite E; now left).
    apply filter_key_In in Hr. destruct Hr as (Hin & Hs & Hd).
    destruct (H r Hin). auto.
  - intros E r Hin [Hs Hd].
    assert (Hr : In r (filter_key data s d)) by now apply filter_key_In.
    rewrite E in Hr. contradiction.
Qed.

Lemma fit_and_forecast_kind hw_fit (ts : Series num) s d h m :
  kind_of_message (snd (fit_and_forecast hw_fit ts s d h m))
  <> Some InsufficientData.
Proof.
  unfold fit_and_forecast, failure.
  destruct (hw_fit _ ts) as [e|p]; [discriminate|].
  destruct (forecast _ h); discriminate.
Qed.
Lemma generate_forecast_short hw_fit (data : list (Row num)) s d h m :
  filter_key data s d <> [] ->
  len (weekly_series_app (filter_key data s d)) < min_points m ->
  generate_forecast hw_fit data s d h m
  = failure (MsgInsufficient (len (weekly_series_app (filter_key data s d)))
               (2 * m) m).
Proof.
  intros Hne Hlt. unfold generate_forecast, min_points in *.
  apply empty_false in Hne. rewrite Hne.
  destruct (Z.ltb_spec (len (weekly_series_app (filter_key data s d)))
              (Z.max (2 * m) (m + 5))); [reflexivity | lia].
Qed.

Lemma generate_forecast_long hw_fit (data : list (Row num)) s d h m :
  filter_key data s d <> [] ->
  min_points m <= len (weekly_series_app (filter_key data s d)) ->
  generate_forecast hw_fit data s d h m
  = fit_and_forecast hw_fit (weekly_series_app (filter_key data s d))
      s d h m.
Proof.
  intros Hne Hge. unfold generate_forecast, min_points in *.
  apply empty_false in Hne. rewrite Hne.
  destruct (Z.ltb_spec (len (weekly_series_app (filter_key data s d)))
              (Z.max (2 * m) (m + 5))); [lia | reflexivity].
Qed.

Lemma run_forecast_checked py_int hw_fit (data : list (Row num)) sv dv wv s d
    h :
  request py_int sv dv wv s d h ->
  run_forecast py_int hw_fit data sv dv wv
  = if h <=? 0 then
      showerror "Input error" "Weeks to forecast must be a positive integer."
    else if empty (filter_key data s d) then
      showerror "No data" "No rows for this Store/Dept combination."
    else if len (weekly_series_sales (filter_key data s d)) <? 20 then
      showerror "Not enough data"
        "Need at least 20 data points for forecasting."
    else
      fit_and_plot hw_fit (weekly_series_sales (filter_key data s d)) s d h.
Proof.
  intros (Hs & Hd & Es & Ed & Eh). unfold run_forecast.
  apply String.eqb_neq in Hs, Hd. rewrite Hs, Hd, Es, Ed, Eh. reflexivity.
Qed.

Lemma fit_and_plot_not_refusal hw_fit (ts : Series num) s d h text :
  fit_and_plot hw_fit ts s d h <> showerror "Not enough data" text.
Proof.
  unfold fit_and_plot.
  destruct (hw_fit _ ts) as [e|p]; [discriminate|].
  destruct (forecast _ h); discriminate.
Qed.

(** C2, as the code has it. [generate_forecast] fits a series if and only if
    its length is at least max(2m, m+5), and otherwise fails with the
    insufficient-data message; with m = 52 a series of 104 points is fitted
    and one of 103 points is refused with a message that reports 103 points
    and a need of 104.  [run_forecast], whose seasonal period is always 52,
    fits a series if and only if its length is at least 20, and its refusal
    reports no counts. *)
Theorem length_validation py_int hw_fit (data : list (Row num)) :
  (forall s d h m,
      filter_key data s d <> [] ->
      let ts := weekly_series_app (filter_key data s d) in
      let r := generate_forecast hw_fit data s d h m in
      (min_points m <= len ts -> r = fit_and_forecast hw_fit ts s d h m)
      /\ (len ts < min_points m ->
          r = failure (MsgInsufficient (len ts) (2 * m) m))
      /\ (kind_of_message (snd r) = Some InsufficientData
          <-> len ts < min_points m)
      /\ (m = 52 -> len ts = 104 -> r = fit_and_forecast hw_fit ts s d h 52)
      /\ (m = 52 -> len ts = 103 ->
          r = failure (MsgInsufficient 103 104 52)))
  /\ (forall sv dv wv s d h,
         request py_int sv dv wv s d h -> 0 < h ->
         filter_key data s d <> [] ->
         let ts := weekly_series_sales (filter_key data s d) in
         let o := run_forecast py_int hw_fit data sv dv wv in
         (20 <= len ts -> o = fit_and_plot hw_fit ts s d h)
         /\ (o = showerror "Not enough data"
                   "Need at least 20 data points for forecasting."
             <-> len ts < 20)).
Proof.
  split.
  - intros s d h m Hne ts r.
    assert (Hlong := generate_forecast_long hw_fit data s d h m Hne).
    assert (Hshort := generate_forecast_short hw_fit data s d h m Hne).
    fold ts r in Hlong, Hshort.
    split; [exact Hlong|]. split; [exact Hshort|]. split; [|split].
    + split.
      * intros Hk. destruct (Z.lt_ge_cases (len ts) (min_points m)) as [|Hge];
          [assumption|].
        rewrite (Hlong Hge) in Hk. now apply fit_and_forecast_kind in Hk.
      * intros Hlt. now rewrite (Hshort Hlt).
    + intros -> E. apply Hlong. rewrite E. unfold min_points. lia.
    + intros -> E. rewrite Hshort; [now rewrite E|].
      rewrite E. unfold min_points. lia.
  - intros sv dv wv s d h Hreq Hh Hne ts o. subst o.
    rewrite (run_forecast_checked _ _ _ _ _ _ _ _ _ Hreq).
    apply empty_false in Hne. rewrite Hne. fold ts.
    destruct (Z.leb_spec h 0); [lia|].
    destruct (Z.ltb_spec (len ts) 20).
    + split; [lia | tauto].
    + split; [reflexivity|]. split; [|lia].
      intros E. now apply fit_and_plot_not_refusal in E.
Qed.

(** C5, as the code has it. When the key matches no row, [generate_forecast]
    returns only the message "No data for Store s, Dept d.", which names the
    store and the department, and no series or forecast; [run_forecast],
    given a valid request with a positive horizon, shows the "No data" box,
    whose text names neither.  Both results are the same for every fitting
    engine: none is consulted. *)
Theorem no_data_for_key py_int hw_fit (data : list (Row num)) :
  (forall s d h m,
      absent data s d ->
      generate_forecast hw_fit data s d h m = failure (MsgNoData s d)
      /\ message_text (MsgNoData s d)
         = ("No data for Store " ++ show s ++ ", Dept " ++ show d ++ ".")%string)
  /\ (forall sv dv wv s d h,
         request py_int sv dv wv s d h -> 0 < h ->
         absent data s d ->
         run_forecast py_int hw_fit data sv dv wv
         = showerror "No data" "No rows for this Store/Dept combination.").
Proof.
  split.
  - intros s d h m Ha. apply absent_filter_key in Ha.
    unfold generate_forecast. rewrite Ha. split; reflexivity.
  - intros sv dv wv s d h Hreq Hh Ha. apply absent_filter_key in Ha.
    rewrite (run_forecast_checked _ _ _ _ _ _ _ _ _ Hreq), Ha.
    destruct (Z.leb_spec h 0); [lia | reflexivity].
Qed.

(** C6, as the code has it. [run_forecast] refuses a horizon below 1 with
    the input error, before it looks at the data.  [generate_forecast] has no
    check of the horizon (its caller's slider starts at 1): for a horizon
    below 1 it still returns a failure and no forecast point, the message
    being the no-data one when the key is absent, the insufficient-data one
    when the series is short, and otherwise a model-fitting error. *)
Theorem nonpositive_horizon py_int hw_fit (data : list (Row num)) :
  (forall sv dv wv s d h,
      request py_int sv dv wv s d h -> h < 1 ->
      run_forecast py_int hw_fit data sv dv wv
      = showerror "Input error"
          "Weeks to forecast must be a positive integer.")
  /\ (forall s d h m,
         h < 1 ->
         let ts := weekly_series_app (filter_key data s d) in
         exists msg,
           generate_forecast hw_fit data s d h m = failure msg
           /\ (filter_key data s d = [] -> msg = MsgNoData s d)
           /\ (filter_key data s d <> [] -> len ts < min_points m ->
               msg = MsgInsufficient (len ts) (2 * m) m)
           /\ (filter_key data s d <> [] -> min_points m <= len ts ->
               exists e, msg = MsgFitError e)).
Proof.
  split.
  - intros sv dv wv s d h Hreq Hh.
    rewrite (run_forecast_checked _ _ _ _ _ _ _ _ _ Hreq).
    destruct (Z.leb_spec h 0); [reflexivity | lia].
  - intros s d h m Hh ts.
    destruct (empty (filter_key data s d)) eqn:Ee.
    + exists (MsgNoData s d). unfold generate_forecast. rewrite Ee.
      apply empty_true in Ee. repeat split; congruence.
    + apply empty_false in Ee.
      destruct (Z.lt_ge_cases (len ts) (min_points m)) as [Hlt|Hge].
      * exists (MsgInsufficient (len ts) (2 * m) m).
        split; [now apply generate_forecast_short|].
        repeat split; try congruence. intros _ ?. lia.
      * pose proof (generate_forecast_long hw_fit data s d h m Ee Hge) as E.
        fold ts in E. unfold fit_and_forecast in E.
        destruct (hw_fit (mkConfig false m None) ts) as [e|p].
        -- exists (MsgFitError e). split; [exact E|].
           repeat split; try congruence; [intros _ ?; lia | eauto].
        -- rewrite (forecast_rejects _ _ Hh) in E.
           eexists. split; [exact E|].
           repeat split; try congruence; [intros _ ?; lia | eauto].
Qed.
(** ** The left joins of load_data *)

Lemma on_features_agree (s : Train.t num) (f : Features.t) :
  on_features s f = true <-> feature_keys_agree s f.
Proof.
  unfold on_features, feature_keys_agree.
  rewrite !andb_true_iff, !Z.eqb_eq, Bool.eqb_true_iff.
  split; intros ((? & ?) & ?) || intros (? & ? & ?); auto.
Qed.

Lemma key_leb_le (a b : Row num) : key_leb a b = true <-> key_le a b.
Proof.
  unfold key_leb, key_le.
  rewrite !orb_true_iff, !andb_true_iff, !orb_true_iff, !andb_true_iff.
  rewrite !Z.ltb_lt, !Z.eqb_eq, Z.leb_le. tauto.
Qed.

Lemma key_leb_total (a b : Row num) : key_leb a b = true \/ key_leb b a = true.
Proof. rewrite !key_leb_le. unfold key_le. lia. Qed.

Lemma key_le_trans (a b c : Row num) : key_le a b -> key_le b c -> key_le a c.
Proof. unfold key_le. lia. Qed.

Lemma sort_values_key_sorted (l : list (Row num)) :
  StronglySorted key_le (sort_values key_leb l).
Proof.
  apply Sorted_StronglySorted; [exact key_le_trans|].
  pose proof (sort_values_sorted key_leb key_leb_total l) as H.
  induction H as [|a l' Hs IH Hhd]; constructor; [assumption|].
  destruct Hhd; constructor. now apply key_leb_le.
Qed.

Lemma load_data_In (train : list (Train.t num)) (stores : list Stores.t)
    (features : list Features.t) (u : Row num) :
  In u (load_data train stores features) <->
  In (sale u) train
  /\ match feat u with
     | Some f => In f features /\ feature_keys_agree (sale u) f
     | None => forall f, In f features -> ~ feature_keys_agree (sale u) f
     end
  /\ match meta u with
     | Some m => In m stores /\ Stores.Store m = Store u
     | None => forall m, In m stores -> Stores.Store m <> Store u
     end.
Proof.
  unfold load_data. rewrite sort_values_In, merge_left_In.
  destruct u as [s fo mo]. unfold Store. cbn [sale feat meta].
  split.
  - intros ([s' fo'] & H1 & H2). apply merge_left_In in H1.
    assert (E : s' = s /\ fo' = fo
                /\ match mo with
                   | Some m => In m stores /\ Stores.Store m = Train.Store s
                   | None => forall m, In m stores ->
                                       Stores.Store m <> Train.Store s
                   end).
    { destruct H2 as [(m & Hm & Hon & E)|(Hno & E)];
        cbn [fst snd] in E; inversion E; subst; clear E; repeat split.
      - assumption.
      - unfold on_store in Hon. cbn [fst] in Hon.
        apply Z.eqb_eq in Hon. congruence.
      - intros m Hm Em. specialize (Hno m Hm).
        unfold on_store in Hno. cbn [fst] in Hno.
        apply Z.eqb_neq in Hno. congruence. }
    destruct E as (-> & -> & Hmeta).
    destruct H1 as (s1 & Hs1 & [(f & Hf & Hon & E)|(Hno & E)]);
      inversion E; subst; clear E;
      (split; [assumption|]); (split; [|assumption]).
    + split; [assumption | now apply on_features_agree].
    + intros f Hf Hag. apply on_features_agree in Hag.
      rewrite (Hno f Hf) in Hag. discriminate.
  - intros (Hs & Hfeat & Hmeta).
    exists (s, fo). split.
    + apply merge_left_In. exists s. split; [assumption|].
      destruct fo as [f|].
      * left. exists f. destruct Hfeat as [Hf Hag].
        apply on_features_agree in Hag. auto.
      * right. split; [|reflexivity]. intros f Hf.
        destruct (on_features s f) eqn:E; [|reflexivity].
        apply on_features_agree in E. now destruct (Hfeat f Hf).
    + unfold on_store. cbn [fst snd]. destruct mo as [m|].
      * left. exists m. destruct Hmeta as [Hm Em].
        repeat split; [assumption | apply Z.eqb_eq; congruence].
      * right. split; [|reflexivity]. intros m Hm.
        apply Z.eqb_neq. intros E. now apply (Hmeta m Hm).
Qed.

Lemma feature_match_dec (s : Train.t num) (features : list Features.t) :
  (exists f, In f features /\ feature_keys_agree s f)
  \/ (forall f, In f features -> ~ feature_keys_agree s f).
Proof.
  destruct (filter (on_features s) features) as [|f l] eqn:E.
  - right. intros f Hf Hag. apply on_features_agree in Hag.
    rewrite (proj1 (filter_nil_iff _ _) E f Hf) in Hag. discriminate.
  - left. exists f.
    assert (H : In f (filter (on_features s) features))
      by (rewrite E; now left).
    apply filter_In in H. destruct H as [Hf Hon].
    apply on_features_agree in Hon. auto.
Qed.

Lemma store_match_dec (s : Train.t num) (stores : list Stores.t) :
  (exists m, In m stores /\ Stores.Store m = Train.Store s)
  \/ (forall m, In m stores -> Stores.Store m <> Train.Store s).
Proof.
  destruct (filter (fun m => Stores.Store m =? Train.Store s) stores)
    as [|m l] eqn:E.
  - right. intros m Hm Em.
    pose proof (proj1 (filter_nil_iff _ _) E m Hm) as H. cbv beta in H.
    apply Z.eqb_neq in H. contradiction.
  - left. exists m.
    assert (H : In m (filter (fun m => Stores.Store m =? Train.Store s)
                        stores)) by (rewrite E; now left).
    apply filter_In in H. destruct H as [Hm Hon].
    apply Z.eqb_eq in Hon. auto.
Qed.

(** C8. The joins of [load_data] keep the left side: every sales row is the
    sales part of some row of the result; the rows of the result are exactly
    the sales rows of train.csv, each joined with a feature row that agrees
    with it on Store, Date and IsHoliday and with a store row of the same
    Store, both taken from their tables, a joined part being null exactly
    when its table has no matching row; and the result is ascending by
    (Store, Dept, Date). *)
Theorem load_data_left_join_sorted (train : list (Train.t num))
    (stores : list Stores.t) (features : list Features.t) :
  (forall s, In s train ->
             exists u, In u (load_data train stores features) /\ sale u = s)
  /\ (forall u, In u (load_data train stores features) <->
        In (sale u) train
        /\ match feat u with
           | Some f => In f features /\ feature_keys_agree (sale u) f
           | None => forall f, In f features -> ~ feature_keys_agree (sale u) f
           end
        /\ match meta u with
           | Some m => In m stores /\ Stores.Store m = Store u
           | None => forall m, In m stores -> Stores.Store m <> Store u
           end)
  /\ StronglySorted key_le (load_data train stores features).
Proof.
  split; [|split].
  - intros s Hs.
    destruct (feature_match_dec s features) as [(f & Hf & Hag)|Hnf];
      destruct (store_match_dec s stores) as [(m & Hm & Em)|Hnm].
    + exists (mkRow s (Some f) (Some m)). split; [|reflexivity].
      apply load_data_In. cbn. auto.
    + exists (mkRow s (Some f) None). split; [|reflexivity].
      apply load_data_In. cbn. auto.
    + exists (mkRow s None (Some m)). split; [|reflexivity].
      apply load_data_In. cbn. auto.
    + exists (mkRow s None None). split; [|reflexivity].
      apply load_data_In. cbn. auto.
  - intros u. apply load_data_In.
  - apply sort_values_key_sorted.
Qed.
(** ** The selection lists *)

(** The lists offered for selection (the store ids of sales.py, the stores and
    the departments of app.py) are strictly ascending, hence without
    repetition, and hold exactly the values that occur in the column. *)
Theorem selection_lists_sorted_distinct (data : list (Row num)) :
  (StronglySorted Z.lt (store_ids data)
   /\ forall s, In s (store_ids data) <-> exists r, In r data /\ Store r = s)
  /\ (StronglySorted Z.lt (all_stores data)
      /\ forall s, In s (all_stores data)
                   <-> exists r, In r data /\ Store r = s)
  /\ (StronglySorted Z.lt (all_depts data)
      /\ forall d, In d (all_depts data)
                   <-> exists r, In r data /\ Dept r = d).
Proof.
  unfold store_ids, all_stores, all_depts.
  repeat split; try apply sorted_unique_spec;
    rewrite (proj2 (sorted_unique_spec _)), in_map_iff;
    intros (r & H1 & H2); exists r; tauto.
Qed.
(** ** The department list of a store *)

Lemma store_rows_In (data : list (Row num)) (sid : Z) (r : Row num) :
  In r (filter (fun r => Store r =? sid) data) <-> In r data /\ Store r = sid.
Proof. now rewrite filter_In, Z.eqb_eq. Qed.
Lemma on_store_change_spec py_int (data : list (Row num)) sc dc sid :
  combo_text sc <> ""%string -> py_int (combo_text sc) = Some sid ->
  let dc' := on_store_change py_int data sc dc in
  StronglySorted Z.lt (combo_values dc')
  /\ (forall d, In d (combo_values dc')
                <-> exists r, In r data /\ Store r = sid /\ Dept r = d)
  /\ match combo_values dc' with
     | [] => combo_text dc' = combo_text dc
     | d0 :: _ =>
         combo_text dc' = show d0
         /\ forall d, In d (combo_values dc') -> d0 <= d
     end.
Proof.
  intros Hne Hint dc'. subst dc'. unfold on_store_change.
  apply String.eqb_neq in Hne. rewrite Hne, Hint.
  set (sd := filter (fun r => Store r =? sid) data).
  destruct (sorted_unique_spec (map Dept sd)) as [Hs Hin].
  assert (Hin' : forall d, In d (sorted (unique (map Dept sd)))
                           <-> exists r, In r data /\ Store r = sid
                                         /\ Dept r = d).
  { intros d. rewrite Hin, in_map_iff. split.
    - intros (r & E & Hr). apply store_rows_In in Hr. exists r. tauto.
    - intros (r & Hr & Es & Ed). exists r. split; [assumption|].
      now apply store_rows_In. }
  destruct (sorted (unique (map Dept sd))) as [|d0 ds] eqn:E;
    cbn [combo_values combo_text].
  - repeat split; try assumption; apply Hin'.
  - repeat split; try assumption; try apply Hin'.
    now apply strict_head_least.
Qed.

(** When the store box shows a number, [on_store_change] fills the
    department box with exactly the departments that have a row of that
    store, strictly ascending, and shows the least of them; when the store
    has no row the list is emptied and the text shown before stays.  When
    the store box is empty or does not show a number, the department box is
    left as it was. *)
Theorem on_store_change_lists_departments py_int (data : list (Row num)) sc dc :
  (forall sid,
      combo_text sc <> ""%string -> py_int (combo_text sc) = Some sid ->
      let dc' := on_store_change py_int data sc dc in
      StronglySorted Z.lt (combo_values dc')
      /\ (forall d, In d (combo_values dc')
                    <-> exists r, In r data /\ Store r = sid /\ Dept r = d)
      /\ match combo_values dc' with
         | [] => combo_text dc' = combo_text dc
         | d0 :: _ =>
             combo_text dc' = show d0
             /\ forall d, In d (combo_values dc') -> d0 <= d
         end)
  /\ (combo_text sc = ""%string \/ py_int (combo_text sc) = None ->
      on_store_change py_int data sc dc = dc).
Proof.
  split.
  - intros sid. apply on_store_change_spec.
  - intros [E|E]; unfold on_store_change.
    + rewrite E. reflexivity.
    + rewrite E. now destruct (combo_text sc =? "")%string.
Qed.

(** A department taken from the list [on_store_change] offers for the shown
    store always has rows: with a positive horizon, [run_forecast] on that
    store and department gets past the no-data check, to the length check
    and the fit. *)
Theorem offered_department_has_data py_int hw_fit (data : list (Row num)) sc
    dc sid d wv h :
  combo_text sc <> ""%string -> py_int (combo_text sc) = Some sid ->
  In d (combo_values (on_store_change py_int data sc dc)) ->
  py_int (show d) = Some d ->
  py_int wv = Some h -> 0 < h ->
  filter_key data sid d <> []
  /\ run_forecast py_int hw_fit data (combo_text sc) (show d) wv
     = if len (weekly_series_sales (filter_key data sid d)) <? 20 then
         showerror "Not enough data"
           "Need at least 20 data points for forecasting."
       else
         fit_and_plot hw_fit (weekly_series_sales (filter_key data sid d))
           sid d h.
Proof.
  intros Hne Hint Hd Hshow Hwv Hh.
  destruct (on_store_change_spec py_int data sc dc sid Hne Hint)
    as (_ & Hin & _).
  apply Hin in Hd. destruct Hd as (r & Hr & Hs & Hdept).
  assert (Hkey : filter_key data sid d <> []).
  { intros E.
    assert (H : In r (filter_key data sid d)) by now apply filter_key_In.
    rewrite E in H. contradiction. }
  split; [assumption|].
  rewrite (run_forecast_checked py_int hw_fit data _ _ _ sid d h).
  - apply empty_false in Hkey. rewrite Hkey.
    destruct (Z.leb_spec h 0); [lia | reflexivity].
  - unfold request. repeat split; try assumption. apply show_nonempty.
Qed.

(** The window of sales.py as it starts on a non-empty dataset shows the
    least store id, the least department of that store and 30 weeks; that
    store and department have rows, so pressing Run at once gets past the
    input checks and the no-data check.  (The texts shown for the two numbers
    must read back as those numbers.) *)
Theorem default_request_has_data py_int hw_fit (data : list (Row num)) :
  data <> [] ->
  let s0 := hd 0 (store_ids data) in
  let w := build_window py_int data in
  let d0 := hd 0 (combo_values (dept_combo w)) in
  py_int (show s0) = Some s0 ->
  py_int (show d0) = Some d0 ->
  py_int "30"%string = Some 30 ->
  (In s0 (store_ids data) /\ forall s, In s (store_ids data) -> s0 <= s)
  /\ (In d0 (combo_values (dept_combo w))
      /\ forall d, In d (combo_values (dept_combo w)) -> d0 <= d)
  /\ combo_text (store_combo w) = show s0
  /\ combo_text (dept_combo w) = show d0
  /\ filter_key data s0 d0 <> []
  /\ press_run py_int hw_fit data w
     = if len (weekly_series_sales (filter_key data s0 d0)) <? 20 then
         showerror "Not enough data"
           "Need at least 20 data points for forecasting."
       else
         fit_and_plot hw_fit (weekly_series_sales (filter_key data s0 d0))
           s0 d0 30.
Proof.
  intros Hdata s0 w d0 Hs0 Hd0 H30.
  destruct (sorted_unique_spec (map Store data)) as [Hsorted Hids].
  fold (store_ids data) in Hsorted, Hids.
  assert (Hw : w = mkWindow (mkCombo (store_ids data) (show s0))
                 (on_store_change py_int data
                    (mkCombo (store_ids data) (show s0)) (mkCombo [] ""))
                 "30"
               /\ In s0 (store_ids data)
               /\ forall s, In s (store_ids data) -> s0 <= s).
  { subst w s0. unfold build_window.
    destruct (store_ids data) as [|s ids] eqn:E.
    - destruct data as [|r data']; [congruence|].
      exfalso. apply (proj2 (Hids (Store r))). simpl. auto.
    - cbn [hd]. repeat split; [now left|].
      now apply strict_head_least. }
  destruct Hw as (Ew & Hin0 & Hleast0).
  set (sc := mkCombo (store_ids data) (show s0)) in *.
  assert (Hne : combo_text sc <> ""%string) by apply show_nonempty.
  destruct (on_store_change_spec py_int data sc (mkCombo [] "") s0 Hne Hs0)
    as (_ & Hdin & Hhead).
  assert (Edc : dept_combo w = on_store_change py_int data sc (mkCombo [] ""))
    by now rewrite Ew.
  rewrite <- Edc in Hdin, Hhead.
  apply Hids, in_map_iff in Hin0. destruct Hin0 as (r0 & Er0 & Hr0).
  assert (Hdr0 : In (Dept r0) (combo_values (dept_combo w))).
  { apply Hdin. exists r0. auto. }
  fold d0 in Hhead.
  destruct (combo_values (dept_combo w)) as [|d ds] eqn:Ev; [contradiction|].
  cbn [hd] in d0. subst d0. destruct Hhead as [Etext Hleast].
  assert (Hkey : filter_key data s0 d <> []).
  { destruct (proj1 (Hdin d) (or_introl eq_refl)) as (r & Hr & Hs & Hd).
    intros E.
    assert (H : In r (filter_key data s0 d)) by now apply filter_key_In.
    rewrite E in H. contradiction. }
  split; [split; [apply Hids, in_map_iff; eauto | exact Hleast0]|].
  split; [split; [now left | exact Hleast]|].
  split; [now rewrite Ew|]. split; [exact Etext|]. split; [exact Hkey|].
  unfold press_run. rewrite Etext.
  replace (combo_text (store_combo w)) with (show s0) by now rewrite Ew.
  replace (weeks_entry w) with "30"%string by now rewrite Ew.
  rewrite (run_forecast_checked py_int hw_fit data _ _ _ s0 d 30).
  - apply empty_false in Hkey. rewrite Hkey. reflexivity.
  - unfold request. repeat split; try assumption; try apply show_nonempty.
Qed.
(** ** How often the join repeats a sales row *)

Lemma merged_sales_rows (train : list (Train.t num)) (stores : list Stores.t)
    (features : list Features.t) :
  map sale (merge_left on_store (fun r m => mkRow (fst r) (snd r) m)
              (merge_left on_features (fun s f => (s, f)) train features)
              stores)
  = flat_map (fun s => repeat s (copies stores features s)) train.
Proof.
  rewrite (merge_left_left_rows on_store _ sale fst) by reflexivity.
  change (fun l : Train.t num * option Features.t =>
            repeat (fst l)
              (Nat.max 1 (length (filter (on_store l) stores))))
    with (fun l : Train.t num * option Features.t =>
            (fun s => repeat s
               (Nat.max 1
                  (length (filter (fun m => Train.Store s =? Stores.Store m)
                             stores)))) (fst l)).
  rewrite <- flat_map_of_map.
  rewrite (merge_left_left_rows on_features _ fst (fun s => s))
    by reflexivity.
  rewrite flat_map_flat_map. apply flat_map_ext. intros s.
  rewrite flat_map_repeat. reflexivity.
Qed.

Lemma load_data_sales_perm (train : list (Train.t num)) (stores : list Stores.t)
    (features : list Features.t) :
  Permutation (map sale (load_data train stores features))
    (flat_map (fun s => repeat s (copies stores features s)) train).
Proof.
  rewrite <- merged_sales_rows. unfold load_data.
  apply Permutation_map, Permutation_sym, sort_values_perm.
Qed.

(** The merged frame holds every sales row once per feature row that matches
    it (once if none does) times once per store row that matches it (once if
    none does): no sales row is lost, and a right-hand table with a repeated
    key repeats the sales rows it matches. *)
Theorem load_data_repeats_per_match (train : list (Train.t num))
    (stores : list Stores.t) (features : list Features.t) :
  Permutation (map sale (load_data train stores features))
    (flat_map (fun s => repeat s (copies stores features s)) train)
  /\ (length train <= length (load_data train stores features))%nat.
Proof.
  pose proof (load_data_sales_perm train stores features) as Hp.
  split; [exact Hp|].
  apply Permutation_length in Hp. rewrite length_map in Hp. rewrite Hp.
  clear Hp. induction train as [|s train IH]; simpl; [lia|].
  rewrite length_app, repeat_length.
  assert (1 <= copies stores features s)%nat by (unfold copies; nia).
  lia.
Qed.
(** *** Unique keys on the right *)

Lemma copies_unique (stores : list Stores.t) (features : list Features.t)
    (s : Train.t num) :
  NoDup (map feature_key features) -> NoDup (map Stores.Store stores) ->
  copies stores features s = 1%nat.
Proof.
  intros Hf Hs. unfold copies.
  assert (length (filter (on_features s) features) <= 1)%nat.
  { apply (filter_unique_key feature_key _
             (Train.Store s, Train.Date s, Train.IsHoliday s)); [|exact Hf].
    intros f Hon. apply on_features_agree in Hon.
    destruct Hon as (E1 & E2 & E3). unfold feature_key. congruence. }
  assert (length (filter (fun m => (Train.Store s =? Stores.Store m)%Z)
                    stores) <= 1)%nat.
  { apply (filter_unique_key Stores.Store _ (Train.Store s)); [|exact Hs].
    intros m Hon. apply Z.eqb_eq in Hon. congruence. }
  lia.
Qed.
Lemma load_data_unique_perm (train : list (Train.t num))
    (stores : list Stores.t)
    (features : list Features.t) :
  NoDup (map feature_key features) -> NoDup (map Stores.Store stores) ->
  Permutation (map sale (load_data train stores features)) train.
Proof.
  intros Hf Hs.
  eapply perm_trans; [apply load_data_sales_perm|].
  rewrite flat_map_singleton; [apply Permutation_refl|].
  intros s. now apply copies_unique.
Qed.

(** When features.csv has no two rows with the same (Store, Date, IsHoliday)
    and stores.csv no two rows with the same Store, the merged frame has
    each sales row exactly once: its sales parts are a rearrangement of
    train.csv, and it has as many rows. *)
Theorem load_data_one_row_per_sale (train : list (Train.t num))
    (stores : list Stores.t) (features : list Features.t) :
  NoDup (map feature_key features) -> NoDup (map Stores.Store stores) ->
  Permutation (map sale (load_data train stores features)) train
  /\ length (load_data train stores features) = length train.
Proof.
  intros Hf Hs.
  pose proof (load_data_unique_perm train stores features Hf Hs) as Hp.
  split; [exact Hp|].
  apply Permutation_length in Hp. now rewrite length_map in Hp.
Qed.
Lemma week_total_sales (data : list (Row num)) (s d w : Z) :
  week_total data s d w = train_week_total (map sale data) s d w.
Proof.
  unfold week_total, week_rows, train_week_total.
  rewrite filter_map_comm, map_map. reflexivity.
Qed.

(** From the raw tables to the fitted series, on a column with exact
    arithmetic: when the right-hand tables have unique keys, every value of
    the weekly series either entry point fits on [load_data]'s result is the
    sum of the Weekly_Sales of the rows of train.csv of that store and
    department whose date falls in that week. *)
Theorem weekly_series_sums_train_rows py_int hw_fit
    (train : list (Train.t num)) stores features :
  Exact col ->
  NoDup (map feature_key features) -> NoDup (map Stores.Store stores) ->
  let data := load_data train stores features in
  (forall s d h m ts fc df msg w v,
      generate_forecast hw_fit data s d h m = (Some ts, fc, df, msg) ->
      In (w, v) ts -> v = train_week_total train s d w)
  /\ (forall sv dv wv ts fc s d h w v,
         run_forecast py_int hw_fit data sv dv wv = plot ts fc s d h ->
         In (w, v) ts -> v = train_week_total train s d w).
Proof.
  intros exact Hf Hs data.
  assert (Ht : forall s d w,
             week_total data s d w = train_week_total train s d w).
  { intros s d w. rewrite week_total_sales.
    apply (train_week_total_perm exact).
    now apply load_data_unique_perm. }
  assert (Hv : forall s d w v,
             In (w, v) (weekly_totals (filter_key data s d)) ->
             v = train_week_total train s d w).
  { intros s d w v Hin.
    apply (proj1 (weekly_totals_series data s d)) in Hin. now rewrite <- Ht. }
  split.
  - intros s d h m ts fc df msg w v E Hin.
    apply generate_forecast_success in E. destruct E as (_ & -> & _).
    rewrite (weekly_series_app_totals exact) in Hin. now apply Hv.
  - intros sv dv wv ts fc s d h w v E Hin.
    apply run_forecast_plot in E. destruct E as (_ & _ & _ & -> & _).
    rewrite (weekly_series_sales_totals exact) in Hin. now apply Hv.
Qed.

(** ** The span of the weekly series *)

(** The length that the validation of sales.py tests is the number of
    calendar weeks from the week of the first observation of the key to the
    week of its last one, whatever the number of observations in between; so
    is the length of the resampled series of app.py.  The length app.py
    tests, after its [dropna], is at most that number, and is that number
    when no weekly sum is NaN. *)
Theorem weekly_series_length_is_span (data : list (Row num)) (s d : Z) :
  filter_key data s d <> [] ->
  exists r1 r2,
    (In r1 data /\ Store r1 = s /\ Dept r1 = d)
    /\ (In r2 data /\ Store r2 = s /\ Dept r2 = d)
    /\ (forall r, In r data -> Store r = s -> Dept r = d ->
                  Date r1 <= Date r <= Date r2)
    /\ len (weekly_series_sales (filter_key data s d))
       = (week_end (Date r2) - week_end (Date r1)) / 7 + 1
    /\ len (resampled_app (filter_key data s d))
       = (week_end (Date r2) - week_end (Date r1)) / 7 + 1
    /\ len (weekly_series_app (filter_key data s d))
       <= (week_end (Date r2) - week_end (Date r1)) / 7 + 1
    /\ ((forall w v, In (w, v) (resampled_app (filter_key data s d)) ->
                     isna v = false) ->
        len (weekly_series_app (filter_key data s d))
        = (week_end (Date r2) - week_end (Date r1)) / 7 + 1).
Proof.
  intros Hne.
  destruct (key_rows_extremes _ Hne) as (r1 & r2 & H1 & H2 & E1 & E2 & Hb).
  exists r1, r2.
  split; [now apply filter_key_In|]. split; [now apply filter_key_In|].
  split.
  { intros r Hr Hs Hd. apply Hb. now apply filter_key_In. }
  assert (Hfull : len (resampled_app (filter_key data s d))
                  = (week_end (Date r2) - week_end (Date r1)) / 7 + 1).
  { rewrite resampled_app_frame, (week_frame_len _ _ Hne), E1, E2.
    reflexivity. }
  split; [|split; [exact Hfull|split]].
  - rewrite weekly_series_sales_frame, (week_frame_len _ _ Hne), E1, E2.
    reflexivity.
  - rewrite <- Hfull. unfold weekly_series_app, len.
    apply inj_le, dropna_length.
  - intros Hnum. unfold weekly_series_app.
    rewrite dropna_all; [exact Hfull|].
    intros [w v] Hin. now apply (Hnum w v).
Qed.

(** A week between the first and the last observation of the key in which
    the key has no row is not left out and is not NaN: it stands in the
    series both entry points fit with the value 0. *)
Theorem empty_weeks_are_zero (data : list (Row num)) (s d w : Z)
    (r1 r2 : Row num) :
  In r1 (filter_key data s d) -> In r2 (filter_key data s d) ->
  w mod 7 = 3 ->
  week_end (Date r1) <= w <= week_end (Date r2) ->
  (forall r, In r (filter_key data s d) -> week_end (Date r) <> w) ->
  In (w, num_zero) (weekly_series_app (filter_key data s d))
  /\ In (w, num_zero) (weekly_series_sales (filter_key data s d)).
Proof.
  set (sd := filter_key data s d). intros H1 H2 Hsun Hw Hmiss.
  destruct (empty_week_sums sd w Hmiss) as [Eapp Esales].
  split.
  - unfold weekly_series_app. apply dropna_In. split.
    + rewrite resampled_app_frame, <- Eapp.
      now apply (week_frame_member _ sd w r1 r2).
    + apply zero_is_number.
  - rewrite weekly_series_sales_frame, <- Esales.
    now apply (week_frame_member _ sd w r1 r2).
Qed.

(** ** Which rows a result depends on *)

(** On a column with exact arithmetic the outcome of a request depends on
    the dataset only through the rows of the requested store and department,
    and not on their order: two datasets whose rows of that key are
    rearrangements of each other give the same result, in both entry points;
    in particular rows of other keys and the order of the rows change
    nothing. *)
Theorem result_depends_on_key_rows py_int hw_fit (data data' : list (Row num)) :
  Exact col ->
  (forall s d h m,
      Permutation (filter_key data s d) (filter_key data' s d) ->
      generate_forecast hw_fit data s d h m
      = generate_forecast hw_fit data' s d h m)
  /\ (forall sv dv wv,
         (forall s d, py_int sv = Some s -> py_int dv = Some d ->
                      Permutation (filter_key data s d)
                        (filter_key data' s d)) ->
         run_forecast py_int hw_fit data sv dv wv
         = run_forecast py_int hw_fit data' sv dv wv)
  /\ (Permutation data data' ->
      (forall s d h m,
          generate_forecast hw_fit data s d h m
          = generate_forecast hw_fit data' s d h m)
      /\ (forall sv dv wv,
             run_forecast py_int hw_fit data sv dv wv
             = run_forecast py_int hw_fit data' sv dv wv)).
Proof.
  intros exact. split; [|split].
  - intros s d h m. apply (generate_forecast_key_rows exact).
  - intros sv dv wv. apply (run_forecast_key_rows exact).
  - intros Hp. split.
    + intros s d h m. apply (generate_forecast_key_rows exact).
      now apply filter_perm.
    + intros sv dv wv. apply (run_forecast_key_rows exact).
      intros s d _ _. now apply filter_perm.
Qed.

(** On any column, float64 included: when the key has at most one row per
    date, the outcome of a request does not depend on the order of the rows
    of the dataset, in both entry points. *)
Theorem row_order_irrelevant_for_distinct_dates py_int hw_fit
    (data data' : list (Row num)) :
  (forall s d h m,
      Permutation (filter_key data s d) (filter_key data' s d) ->
      NoDup (map Date (filter_key data s d)) ->
      generate_forecast hw_fit data s d h m
      = generate_forecast hw_fit data' s d h m)
  /\ (forall sv dv wv,
         (forall s d, py_int sv = Some s -> py_int dv = Some d ->
                      Permutation (filter_key data s d) (filter_key data' s d)
                      /\ NoDup (map Date (filter_key data s d))) ->
         run_forecast py_int hw_fit data sv dv wv
         = run_forecast py_int hw_fit data' sv dv wv).
Proof.
  split.
  - intros s d h m Hp Hnd. unfold generate_forecast.
    destruct (weekly_series_distinct _ _ Hp Hnd) as [-> _].
    now rewrite (empty_perm _ _ Hp).
  - intros sv dv wv H. unfold run_forecast.
    destruct ((sv =? "")%string || (dv =? "")%string); [reflexivity|].
    destruct (py_int sv) as [s|]; [|reflexivity].
    destruct (py_int dv) as [d|]; [|reflexivity].
    destruct (H s d eq_refl eq_refl) as [Hp Hnd].
    destruct (weekly_series_distinct _ _ Hp Hnd) as [_ ->].
    now rewrite (empty_perm _ _ Hp).
Qed.

(** ** The shape of the results *)

Lemma generate_forecast_shape hw_fit (data : list (Row num)) s d h m :
  (exists msg,
      generate_forecast hw_fit data s d h m = failure msg
      /\ kind_of_message msg <> None)
  \/ (exists ts fc,
         generate_forecast hw_fit data s d h m
         = (Some ts, Some fc, Some fc, MsgSuccess h s d)
         /\ ts = weekly_series_app (filter_key data s d)
         /\ (1 <= m -> ts <> []) /\ min_points m <= len ts).
Proof.
  unfold generate_forecast.
  destruct (empty (filter_key data s d)) eqn:Ee.
  { left. eexists. split; [reflexivity | discriminate]. }
  apply empty_false in Ee.
  set (ts := weekly_series_app (filter_key data s d)).
  fold (min_points m).
  destruct (Z.ltb_spec (len ts) (min_points m)).
  { left. eexists. split; [reflexivity | discriminate]. }
  unfold fit_and_forecast.
  destruct (hw_fit (mkConfig false m None) ts) as [e|p].
  { left. eexists. split; [reflexivity | discriminate]. }
  destruct (forecast (mkResults ts p) h) as [e|fc].
  { left. eexists. split; [reflexivity | discriminate]. }
  right. exists ts, fc. repeat split; try assumption.
  intros Hm E. rewrite E in H. unfold min_points, len in H. simpl in H. lia.
Qed.

(** What the docstring of [generate_forecast] promises: the result is either
    all failure (no series, no forecast, no table, and a message that is one
    of the three failure messages) or all success (the weekly series of the
    key, which is long enough and, for a seasonal period of at least 1, not
    empty, the forecast, the table with the forecast's rows, and the success
    message for the request); never a mixture. *)
Theorem generate_forecast_all_or_nothing hw_fit (data : list (Row num)) s d h
    m :
  (exists msg,
      generate_forecast hw_fit data s d h m = (None, None, None, msg)
      /\ kind_of_message msg <> None)
  \/ (exists ts fc,
         generate_forecast hw_fit data s d h m
         = (Some ts, Some fc, Some fc, MsgSuccess h s d)
         /\ ts = weekly_series_app (filter_key data s d)
         /\ (1 <= m -> ts <> []) /\ min_points m <= len ts).
Proof. apply generate_forecast_shape. Qed.

(** The main logic of app.py tests only whether the series is [None] and
    then uses the forecast and the table; this never fails: the page is the
    error with the message of the failure exactly when [generate_forecast]
    failed, and otherwise shows the series, the forecast and the table of
    the success, with the download named after the store and department. *)
Theorem main_logic_never_uses_none hw_fit (data : list (Row num)) run_button s
    d h m :
  main_logic hw_fit data run_button s d h m <> attribute_error
  /\ (run_button = false -> main_logic hw_fit data run_button s d h m = idle)
  /\ (run_button = true ->
      (exists msg,
          generate_forecast hw_fit data s d h m = failure msg
          /\ main_logic hw_fit data run_button s d h m
             = error_page
                 ("Results for Store " ++ show s ++ ", Department " ++ show d)
                 (message_text msg))
      \/ (exists ts fc,
             generate_forecast hw_fit data s d h m
             = (Some ts, Some fc, Some fc, MsgSuccess h s d)
             /\ main_logic hw_fit data run_button s d h m
                = forecast_page
                    ("Results for Store " ++ show s ++ ", Department "
                     ++ show d)
                    (message_text (MsgSuccess h s d)) ts fc fc
                    ("forecast_store" ++ show s ++ "_dept" ++ show d
                     ++ ".csv")))%string.
Proof.
  unfold main_logic.
  destruct (generate_forecast_shape hw_fit data s d h m)
    as [(msg & E & _)|(ts & fc & E & _)]; rewrite E; unfold failure.
  - destruct run_button; repeat split; try discriminate.
    intros _. left. exists msg. auto.
  - destruct run_button; repeat split; try discriminate.
    intros _. right. exists ts, fc. auto.
Qed.
(** ** The checks of run_forecast *)

Lemma fit_and_plot_not_input_error hw_fit (ts : Series num) s d h text :
  fit_and_plot hw_fit ts s d h <> showerror "Input error" text.
Proof.
  unfold fit_and_plot.
  destruct (hw_fit _ ts) as [e|p]; [discriminate|].
  destruct (forecast _ h); discriminate.
Qed.

Lemma invalid_request_input_error py_int sv dv wv :
  sv = ""%string \/ dv = ""%string
  \/ py_int sv = None \/ py_int dv = None
  \/ py_int wv = None \/ (exists h, py_int wv = Some h /\ h <= 0) ->
  exists text, forall hw_fit data,
    run_forecast py_int hw_fit data sv dv wv = showerror "Input error" text.
Proof.
  intros Hinv. unfold run_forecast.
  destruct ((sv =? "")%string || (dv =? "")%string) eqn:Ec;
    [eexists; reflexivity|].
  apply orb_false_iff in Ec. destruct Ec as [Es Ed].
  apply String.eqb_neq in Es, Ed.
  destruct (py_int sv) as [s|]; [|eexists; reflexivity].
  destruct (py_int dv) as [d|]; [|eexists; reflexivity].
  destruct (py_int wv) as [h|]; [|eexists; reflexivity].
  destruct (Z.leb_spec h 0); [eexists; reflexivity|].
  exfalso.
  destruct Hinv as [?|[?|[?|[?|[?|(h0 & E & ?)]]]]]; try congruence.
  injection E as <-. lia.
Qed.

Lemma input_error_invalid_request py_int hw_fit (data : list (Row num)) sv dv
    wv text :
  run_forecast py_int hw_fit data sv dv wv = showerror "Input error" text ->
  sv = ""%string \/ dv = ""%string
  \/ py_int sv = None \/ py_int dv = None
  \/ py_int wv = None \/ (exists h, py_int wv = Some h /\ h <= 0).
Proof.
  unfold run_forecast.
  destruct (String.eqb_spec sv ""); [auto|].
  destruct (String.eqb_spec dv ""); [auto|]. cbn [orb].
  destruct (py_int sv) as [s|]; [|auto].
  destruct (py_int dv) as [d|]; [|auto 6].
  destruct (py_int wv) as [h|]; [|auto 6].
  destruct (Z.leb_spec h 0); [intros _; do 5 right; eauto|].
  intros E. exfalso.
  destruct (empty (filter_key data s d)); [discriminate|].
  destruct (len (weekly_series_sales (filter_key data s d)) <? 20);
    [discriminate|].
  now apply fit_and_plot_not_input_error in E.
Qed.

(** [run_forecast] shows an input error exactly when a selection is empty,
    a selection or the horizon is not a number, or the horizon is not
    positive; and then the outcome is the same for every dataset and every
    engine: the data are not looked at. *)
Theorem input_errors_characterised py_int hw_fit (data : list (Row num)) sv dv
    wv :
  let invalid :=
    sv = ""%string \/ dv = ""%string
    \/ py_int sv = None \/ py_int dv = None
    \/ py_int wv = None \/ (exists h, py_int wv = Some h /\ h <= 0) in
  ((exists text,
       run_forecast py_int hw_fit data sv dv wv = showerror "Input error" text)
   <-> invalid)
  /\ (invalid ->
      forall hw_fit' data',
        run_forecast py_int hw_fit' data' sv dv wv
        = run_forecast py_int hw_fit data sv dv wv).
Proof.
  intros invalid. subst invalid. split; [split|].
  - intros (text & E). now apply input_error_invalid_request in E.
  - intros Hinv.
    destruct (invalid_request_input_error py_int sv dv wv Hinv) as (text & E).
    exists text. apply E.
  - intros Hinv hw_fit' data'.
    destruct (invalid_request_input_error py_int sv dv wv Hinv) as (text & E).
    now rewrite !E.
Qed.

(** ** The order of the rows in the three files *)

Lemma load_data_perm (train train' : list (Train.t num))
    (stores stores' : list Stores.t) (features features' : list Features.t) :
  Permutation train train' -> Permutation stores stores' ->
  Permutation features features' ->
  Permutation (load_data train stores features)
    (load_data train' stores' features').
Proof.
  intros Ht Hs Hf. unfold load_data.
  eapply perm_trans; [apply Permutation_sym, sort_values_perm|].
  eapply perm_trans; [|apply sort_values_perm].
  apply merge_left_perm; [|assumption]. now apply merge_left_perm.
Qed.
(** The order of the rows in train.csv, stores.csv and features.csv does not
    change which rows are loaded: loading rearranged files gives a rearranged
    frame.  On a column with exact arithmetic every request then has the
    same outcome on it, in both entry points. *)
Theorem file_row_order_is_irrelevant py_int hw_fit
    (train train' : list (Train.t num)) stores stores' features features' :
  Permutation train train' -> Permutation stores stores' ->
  Permutation features features' ->
  Permutation (load_data train stores features)
    (load_data train' stores' features')
  /\ (Exact col ->
      (forall s d h m,
          generate_forecast hw_fit (load_data train stores features) s d h m
          = generate_forecast hw_fit (load_data train' stores' features')
              s d h m)
      /\ (forall sv dv wv,
             run_forecast py_int hw_fit (load_data train stores features)
               sv dv wv
             = run_forecast py_int hw_fit
                 (load_data train' stores' features') sv dv wv)).
Proof.
  intros Ht Hs Hf.
  pose proof (load_data_perm _ _ _ _ _ _ Ht Hs Hf) as Hp.
  split; [exact Hp|]. intros exact. split.
  - intros s d h m. apply (generate_forecast_key_rows exact).
    now apply filter_perm.
  - intros sv dv wv. apply (run_forecast_key_rows exact).
    intros s d _ _. now apply filter_perm.
Qed.

(** Running [on_store_change] again without a change of the store box
    changes nothing: the department box it leaves is a fixed point. *)
Theorem on_store_change_twice py_int (data : list (Row num)) sc dc :
  on_store_change py_int data sc (on_store_change py_int data sc dc)
  = on_store_change py_int data sc dc.
Proof.
  unfold on_store_change.
  destruct (combo_text sc =? "")%string; [reflexivity|].
  destruct (py_int (combo_text sc)) as [sid|]; [|reflexivity].
  destruct (sorted (unique (map Dept (filter (fun r => Store r =? sid) data))));
    reflexivity.
Qed.
End EntryPoints.

(** ** The weekly values of an int64 column *)

(** On an int64 column every value of the series either entry point fits is
    the sum of the Weekly_Sales of the rows of the key in its week, taken
    modulo 2^64 and read as a signed 64-bit number. *)
Theorem int64_weekly_values_modulo py_int hw_fit (data : list (Row int64)) :
  (forall s d h m ts fc df msg w v,
      generate_forecast (col := int64_column) hw_fit data s d h m
      = (Some ts, fc, df, msg) ->
      In (w, v) ts ->
      signed v
      = wrap64 (fold_right Z.add 0
                  (map (fun r => signed (Weekly_Sales r))
                     (week_rows data s d w))))
  /\ (forall sv dv wv ts fc s d h w v,
         run_forecast (col := int64_column) py_int hw_fit data sv dv wv
         = plot ts fc s d h ->
         In (w, v) ts ->
         signed v
         = wrap64 (fold_right Z.add 0
                     (map (fun r => signed (Weekly_Sales r))
                        (week_rows data s d w)))).
Proof.
  assert (Hv : forall s d w v,
             In (w, v) (weekly_totals (col := int64_column)
                          (filter_key data s d)) ->
             signed v
             = wrap64 (fold_right Z.add 0
                         (map (fun r => signed (Weekly_Sales r))
                            (week_rows data s d w)))).
  { intros s d w v Hin.
    apply (proj1 (weekly_totals_series data s d)) in Hin. subst v.
    unfold week_total. now rewrite signed_total, map_map. }
  split.
  - intros s d h m ts fc df msg w v E Hin.
    apply generate_forecast_success in E. destruct E as (_ & -> & _).
    rewrite (weekly_series_app_totals int64_exact) in Hin. now apply Hv.
  - intros sv dv wv ts fc s d h w v E Hin.
    apply run_forecast_plot in E. destruct E as (_ & _ & _ & -> & _).
    rewrite (weekly_series_sales_totals int64_exact) in Hin. now apply Hv.
Qed.

(** * The pipelines on concrete inputs *)

#[export] Existing Instance float64.
#[export] Existing Instance int64_column.

Tactic Notation "run_to_value" constr(t) "as" ident(r) ident(E) :=
  let E' := fresh "Hval" in
  assert (exists r0, t = r0) as [r E] by (eexists; reflexivity);
  assert (E' := E); vm_compute in E'; destruct E'.

Ltac valid_request :=
  unfold request; repeat split; try (vm_compute; reflexivity); discriminate.

(** ** The weekly series, the validations and the joins *)

Example load_data_example :
  load_data train_rows store_rows feature_rows
  = [ mkRow (Train.mk 1 1 8 (float_of_Z 10) false)
        (Some (Features.mk 1 8 false [float_of_Z 42]))
        (Some (Stores.mk 1 "A" 151315));
      mkRow (Train.mk 1 2 15 (float_of_Z 20) true) None
        (Some (Stores.mk 1 "A" 151315));
      mkRow (Train.mk 2 1 8 (float_of_Z 30) false)
        (Some (Features.mk 2 8 false [PrimFloat.nan]))
        (Some (Stores.mk 2 "B" 202307));
      mkRow (Train.mk 3 1 8 PrimFloat.nan false)
        (Some (Features.mk 3 8 false [float_of_Z 39])) None ].
Proof. vm_compute. reflexivity. Qed.

Lemma load_data_left_join_sorted_witness :
  (exists u, In u (load_data train_rows store_rows feature_rows)
             /\ sale u = Train.mk 1 2 15 (float_of_Z 20) true)
  /\ In (mkRow (Train.mk 3 1 8 PrimFloat.nan false)
          (Some (Features.mk 3 8 false [float_of_Z 39])) None)
       (load_data train_rows store_rows feature_rows).
Proof.
  pose proof (load_data_left_join_sorted train_rows store_rows feature_rows)
    as (Hkeep & Hrows & _).
  split.
  - apply Hkeep. simpl. tauto.
  - apply Hrows. cbn [sale feat meta]. split; [simpl; tauto|]. split.
    + split; [simpl; tauto | now vm_compute].
    + intros m [<-|[<-|[]]]; discriminate.
Defined.

Example weekly_series_example :
  weekly_series_app (filter_key sparse_rows 1 1)
  = [(10, float_of_Z 15); (17, float_of_Z 0); (24, float_of_Z 0);
     (31, float_of_Z 7)]
  /\ weekly_series_sales (filter_key sparse_rows 1 1)
     = [(10, float_of_Z 15); (17, float_of_Z 0); (24, float_of_Z 0);
        (31, float_of_Z 7)].
Proof. split; vm_compute; reflexivity. Qed.

Lemma weekly_series_sums_weeks_witness :
  (exists ts fc df msg,
      generate_forecast reference_fit history 1 1 4 2 = (Some ts, fc, df, msg)
      /\ ts = dropna (resampled_app (filter_key history 1 1))
      /\ covers_weeks history 1 1
           (map fst (resampled_app (filter_key history 1 1)))
      /\ forall w v, In (w, v) (resampled_app (filter_key history 1 1)) ->
                     summed_by_row history 1 1 w v)
  /\ (exists ts fc,
         run_forecast int_of_decimal reference_fit history "1" "1" "4"
         = plot ts fc 1 1 4
         /\ covers_weeks history 1 1 (map fst ts)
         /\ forall w v, In (w, v) ts -> summed_by_day history 1 1 w v)
  /\ (exists ts fc df msg,
         generate_forecast reference_fit_int64 history_int64 1 1 4 2
         = (Some ts, fc, df, msg)
         /\ weekly_series_of history_int64 1 1 ts)
  /\ (exists ts fc,
         run_forecast int_of_decimal reference_fit_int64 history_int64
           "1" "1" "4"
         = plot ts fc 1 1 4
         /\ weekly_series_of history_int64 1 1 ts).
Proof.
  destruct (weekly_series_sums_weeks int_of_decimal reference_fit history)
    as (Happ & Hsales & _).
  destruct (weekly_series_sums_weeks int_of_decimal reference_fit_int64
              history_int64) as (_ & _ & Hexact).
  destruct (Hexact int64_exact) as [Heapp Hesales].
  split; [|split; [|split]].
  - run_to_value (generate_forecast reference_fit history 1 1 4 2) as r E.
    do 4 eexists. split; [exact E|].
    exact (Happ _ _ _ _ _ _ _ _ E).
  - run_to_value (run_forecast int_of_decimal reference_fit history
                    "1" "1" "4") as r E.
    do 2 eexists. split; [exact E|].
    exact (Hsales _ _ _ _ _ _ _ _ E).
  - run_to_value (generate_forecast reference_fit_int64 history_int64
                    1 1 4 2) as r E.
    do 4 eexists. split; [exact E|].
    exact (Heapp _ _ _ _ _ _ _ _ E).
  - run_to_value (run_forecast int_of_decimal reference_fit_int64
                    history_int64 "1" "1" "4") as r E.
    do 2 eexists. split; [exact E|].
    exact (Hesales _ _ _ _ _ _ _ _ E).
Defined.

(** C1 as stated fails on both dtypes.  On an int64 column with three sales
    of 2^62 in one week the value app.py fits for that week is -2^62, the
    sum 3 * 2^62 taken modulo 2^64.  On a float64 column with sales of 2^53
    and 1 on one day and of 1 on the next, the value sales.py fits for that
    week is 2^53, the sum being 2^53 + 2.  And on a float64 column with +inf
    and -inf in one week app.py drops that week, which leaves a gap of two
    weeks in its dates.  Each of these series passes the checks of its entry
    point, whatever the engine. *)
Lemma weekly_values_are_not_sums :
  (exists ts fc df msg v,
      generate_forecast reference_fit_int64 large_rows 1 1 4 2
      = (Some ts, fc, df, msg)
      /\ In (10, v) ts /\ signed v = - 2 ^ 62
      /\ map (fun r => signed (Weekly_Sales r)) (week_rows large_rows 1 1 10)
         = [2 ^ 62; 2 ^ 62; 2 ^ 62]
      /\ forall hw_fit,
           generate_forecast hw_fit large_rows 1 1 4 2
           = fit_and_forecast hw_fit
               (weekly_series_app (filter_key large_rows 1 1)) 1 1 4 2)
  /\ (exists ts fc v,
         run_forecast int_of_decimal reference_fit uneven_rows "1" "1" "4"
         = plot ts fc 1 1 4
         /\ In (10, v) ts /\ float_value v = Some (inject_Z (2 ^ 53))
         /\ map (fun r => float_value (Weekly_Sales r))
              (week_rows uneven_rows 1 1 10)
            = [Some (inject_Z (2 ^ 53)); Some 1%Q; Some 1%Q]
         /\ rational_sum float_value
              (map Weekly_Sales (week_rows uneven_rows 1 1 10))
            = inject_Z (2 ^ 53 + 2)
         /\ forall hw_fit,
              run_forecast int_of_decimal hw_fit uneven_rows "1" "1" "4"
              = fit_and_plot hw_fit
                  (weekly_series_sales (filter_key uneven_rows 1 1)) 1 1 4)
  /\ (exists ts fc df msg,
         generate_forecast reference_fit infinite_second_week 1 1 4 2
         = (Some ts, fc, df, msg)
         /\ map fst ts = [10; 24; 31; 38; 45; 52; 59]
         /\ map Weekly_Sales (week_rows infinite_second_week 1 1 17)
            = [PrimFloat.infinity; PrimFloat.neg_infinity]).
Proof.
  split; [|split].
  - run_to_value (generate_forecast reference_fit_int64 large_rows 1 1 4 2)
      as r E.
    do 5 eexists. split; [exact E|].
    split; [left; reflexivity|]. split; [reflexivity|].
    split; [vm_compute; reflexivity|].
    intros hw_fit. apply generate_forecast_long; vm_compute; discriminate.
  - run_to_value (run_forecast int_of_decimal reference_fit uneven_rows
                    "1" "1" "4") as r E.
    do 3 eexists. split; [exact E|].
    split; [left; reflexivity|]. split; [vm_compute; reflexivity|].
    split; [vm_compute; reflexivity|]. split; [vm_compute; reflexivity|].
    intros hw_fit.
    rewrite (run_forecast_checked int_of_decimal hw_fit uneven_rows
               "1" "1" "4" 1 1 4) by valid_request.
    replace (empty (filter_key uneven_rows 1 1)) with false
      by (vm_compute; reflexivity).
    replace (len (weekly_series_sales (filter_key uneven_rows 1 1)))
      with 105 by (vm_compute; reflexivity).
    reflexivity.
  - run_to_value (generate_forecast reference_fit infinite_second_week
                    1 1 4 2) as r E.
    do 4 eexists. split; [exact E|].
    split; vm_compute; reflexivity.
Qed.

Lemma weekly_series_ends_observed_witness :
  (exists ts fc df msg,
      generate_forecast reference_fit history 1 1 4 2 = (Some ts, fc, df, msg)
      /\ ends_observed history 1 1 (resampled_app (filter_key history 1 1))
      /\ ends_observed history 1 1 ts)
  /\ (exists ts fc,
         run_forecast int_of_decimal reference_fit history "1" "1" "4"
         = plot ts fc 1 1 4
         /\ ends_observed history 1 1 ts)
  /\ (exists ts fc df msg,
         generate_forecast reference_fit_int64 history_int64 1 1 4 2
         = (Some ts, fc, df, msg)
         /\ ends_observed history_int64 1 1 ts).
Proof.
  destruct (weekly_series_ends_observed int_of_decimal reference_fit history)
    as (Happ & Hsales).
  destruct (weekly_series_ends_observed int_of_decimal reference_fit_int64
              history_int64) as (Heapp & _).
  split; [|split].
  - run_to_value (generate_forecast reference_fit history 1 1 4 2) as r E.
    do 4 eexists. split; [exact E|].
    pose proof (Happ _ _ _ _ _ _ _ _ E) as H. cbv zeta in H.
    destruct H as (_ & Hfull & Hkept & _).
    split; [exact Hfull|].
    apply Hkept; vm_compute; reflexivity.
  - run_to_value (run_forecast int_of_decimal reference_fit history
                    "1" "1" "4") as r E.
    do 2 eexists. split; [exact E|].
    exact (Hsales _ _ _ _ _ _ _ _ E).
  - run_to_value (generate_forecast reference_fit_int64 history_int64
                    1 1 4 2) as r E.
    do 4 eexists. split; [exact E|].
    pose proof (Heapp _ _ _ _ _ _ _ _ E) as H. cbv zeta in H.
    destruct H as (_ & _ & _ & Hexact).
    exact (Hexact int64_exact).
Defined.

(** C4 as stated fails for app.py on a float64 column: when the first week
    of the key holds +inf and -inf, its sum is NaN and [dropna] removes it;
    the series then begins with the next week, here one in which the key has
    no row and whose value is 0.  The series passes the checks of
    [generate_forecast], whatever the engine. *)
Lemma weekly_series_app_begins_with_empty_week :
  (exists ts fc df msg,
      generate_forecast reference_fit infinite_first_week 1 1 4 2
      = (Some ts, fc, df, msg)
      /\ hd_error ts = Some (17, PrimFloat.zero))
  /\ week_rows infinite_first_week 1 1 17 = []
  /\ map Weekly_Sales (week_rows infinite_first_week 1 1 10)
     = [PrimFloat.infinity; PrimFloat.neg_infinity]
  /\ hd_error (resampled_app (filter_key infinite_first_week 1 1))
     = Some (10, PrimFloat.nan)
  /\ hd_error (weekly_series_sales (filter_key infinite_first_week 1 1))
     = Some (10, PrimFloat.nan)
  /\ (forall hw_fit,
         generate_forecast hw_fit infinite_first_week 1 1 4 2
         = fit_and_forecast hw_fit
             (weekly_series_app (filter_key infinite_first_week 1 1))
             1 1 4 2).
Proof.
  split.
  - run_to_value (generate_forecast reference_fit infinite_first_week
                    1 1 4 2) as r E.
    do 4 eexists. split; [exact E | reflexivity].
  - repeat split; vm_compute; reflexivity.
Qed.



Lemma forecast_has_h_weekly_points_witness :
  (exists fc,
      forecast (mkResults [(10, float_of_Z 15); (17, float_of_Z 0)]
                  (mkParams 8 (-1) [2; -2]%Q 1)) 3 = inr fc
      /\ forecast_of [(10, float_of_Z 15); (17, float_of_Z 0)] 3 fc)
  /\ (exists ts fc df msg,
         generate_forecast reference_fit history 1 1 4 2
         = (Some ts, Some fc, df, msg)
         /\ forecast_of ts 4 fc /\ df = Some fc)
  /\ (exists ts fc,
         run_forecast int_of_decimal reference_fit history "1" "1" "4"
         = plot ts fc 1 1 4
         /\ forecast_of ts 4 fc).
Proof.
  pose proof (forecast_has_h_weekly_points int_of_decimal reference_fit
                history) as (Hf & Happ & Hsales).
  split; [|split].
  - apply Hf. lia.
  - run_to_value (generate_forecast reference_fit history 1 1 4 2) as r E.
    do 4 eexists. split; [exact E|]. exact (Happ _ _ _ _ _ _ _ _ E).
  - run_to_value (run_forecast int_of_decimal reference_fit history
                    "1" "1" "4") as r E.
    do 2 eexists. split; [exact E|]. exact (Hsales _ _ _ _ _ _ _ _ E).
Defined.

Lemma length_validation_witness :
  generate_forecast reference_fit (fridays 103) 1 1 30 52
  = failure (MsgInsufficient 103 104 52)
  /\ generate_forecast reference_fit (fridays 104) 1 1 30 52
     = fit_and_forecast reference_fit
         (weekly_series_app (filter_key (fridays 104) 1 1)) 1 1 30 52
  /\ run_forecast int_of_decimal reference_fit (fridays 19) "1" "1" "30"
     = showerror "Not enough data"
         "Need at least 20 data points for forecasting."
  /\ run_forecast int_of_decimal reference_fit (fridays 20) "1" "1" "30"
     = fit_and_plot reference_fit
         (weekly_series_sales (filter_key (fridays 20) 1 1)) 1 1 30.
Proof.
  split; [|split; [|split]].
  - apply (proj1 (length_validation int_of_decimal reference_fit
                    (fridays 103)) 1 1 30 52);
      [vm_compute; discriminate | reflexivity | vm_compute; reflexivity].
  - apply (proj1 (length_validation int_of_decimal reference_fit
                    (fridays 104)) 1 1 30 52);
      [vm_compute; discriminate | reflexivity | vm_compute; reflexivity].
  - apply (proj2 (length_validation int_of_decimal reference_fit
                    (fridays 19)) "1" "1" "30" 1 1 30)%string;
      [valid_request | lia | vm_compute; discriminate
      | vm_compute; reflexivity].
  - apply (proj2 (length_validation int_of_decimal reference_fit
                    (fridays 20)) "1" "1" "30" 1 1 30)%string;
      [valid_request | lia | vm_compute; discriminate
      | vm_compute; discriminate].
Defined.

(** C2 as stated fails for [run_forecast]: a series of 103 weekly points,
    fewer than max(2*52, 52+5) = 104, passes its length check and is handed
    to the engine, whatever the engine; the outcome is never the
    not-enough-data error. *)
Lemma run_forecast_fits_103_points :
  len (weekly_series_sales (filter_key (fridays 103) 1 1)) = 103
  /\ min_points 52 = 104
  /\ (forall hw_fit,
         run_forecast int_of_decimal hw_fit (fridays 103) "1" "1" "30"
         = fit_and_plot hw_fit
             (weekly_series_sales (filter_key (fridays 103) 1 1)) 1 1 30)
  /\ (forall hw_fit text,
         run_forecast int_of_decimal hw_fit (fridays 103) "1" "1" "30"
         <> showerror "Not enough data" text).
Proof.
  assert (H : forall hw_fit,
             run_forecast int_of_decimal hw_fit (fridays 103) "1" "1" "30"
             = fit_and_plot hw_fit
                 (weekly_series_sales (filter_key (fridays 103) 1 1)) 1 1 30).
  { intros hw_fit.
    rewrite (run_forecast_checked int_of_decimal hw_fit (fridays 103)
               "1" "1" "30" 1 1 30) by valid_request.
    replace (empty (filter_key (fridays 103) 1 1)) with false
      by (vm_compute; reflexivity).
    replace (len (weekly_series_sales (filter_key (fridays 103) 1 1)))
      with 103 by (vm_compute; reflexivity).
    reflexivity. }
  split; [vm_compute; reflexivity|]. split; [reflexivity|].
  split; [exact H|].
  intros hw_fit text. rewrite H. apply fit_and_plot_not_refusal.
Qed.

Lemma no_data_for_key_witness :
  generate_forecast reference_fit history 3 1 4 52 = failure (MsgNoData 3 1)
  /\ message_text (MsgNoData 3 1) = "No data for Store 3, Dept 1."%string
  /\ run_forecast int_of_decimal reference_fit history "3" "1" "4"
     = showerror "No data" "No rows for this Store/Dept combination.".
Proof.
  assert (Ha : absent history 3 1)
    by (apply absent_filter_key; vm_compute; reflexivity).
  split; [|split].
  - apply (proj1 (no_data_for_key int_of_decimal reference_fit history)
             3 1 4 52 Ha).
  - reflexivity.
  - apply (proj2 (no_data_for_key int_of_decimal reference_fit history)
             "3" "1" "4" 3 1 4)%string; [valid_request | lia | exact Ha].
Defined.

(** C5 as stated fails for [run_forecast]: for two different absent keys the
    error is the same box, whose text names no store or department; and when
    the horizon is not positive the absent key is never looked up: the error
    is the input error. *)
Lemma run_forecast_no_data_names_no_key :
  run_forecast int_of_decimal reference_fit history "3" "1" "4"
  = showerror "No data" "No rows for this Store/Dept combination."
  /\ run_forecast int_of_decimal reference_fit history "1" "7" "4"
     = showerror "No data" "No rows for this Store/Dept combination."
  /\ run_forecast int_of_decimal reference_fit history "3" "1" "0"
     = showerror "Input error"
         "Weeks to forecast must be a positive integer.".
Proof. repeat split; vm_compute; reflexivity. Qed.

Lemma nonpositive_horizon_witness :
  run_forecast int_of_decimal reference_fit history "1" "1" "0"
  = showerror "Input error" "Weeks to forecast must be a positive integer."
  /\ exists msg,
       generate_forecast reference_fit history 1 1 0 2 = failure msg
       /\ exists e, msg = MsgFitError e.
Proof.
  split.
  - apply (proj1 (nonpositive_horizon int_of_decimal reference_fit history)
             "1" "1" "0" 1 1 0)%string; [valid_request | lia].
  - destruct (proj2 (nonpositive_horizon int_of_decimal reference_fit history)
                1 1 0 2) as (msg & E & _ & _ & Hfit); [lia|].
    exists msg. split; [exact E|].
    apply Hfit; [vm_compute; discriminate | vm_compute; discriminate].
Defined.

(** C6 as stated fails for [generate_forecast]: asked for a horizon of 0 on
    a key that has no rows it reports the missing data, and on a key with
    two years of data what it reports is a model-fitting error; neither is
    an invalid-parameter error. *)
Lemma generate_forecast_horizon_unchecked :
  generate_forecast reference_fit history 3 1 0 52 = failure (MsgNoData 3 1)
  /\ kind_of_message (MsgNoData 3 1) = Some NoDataForKey
  /\ exists e,
       generate_forecast reference_fit history 1 1 0 2
       = failure (MsgFitError e)
       /\ kind_of_message (MsgFitError e) = Some ModelFitError.
Proof.
  split; [|split]; try (vm_compute; reflexivity).
  eexists. split; vm_compute; reflexivity.
Qed.

(** C7 at seasonal_periods = 4 and a series of 8 weekly points: the series
    is refused because 8 is below the enforced minimum max(2*4, 4+5) = 9,
    while the message reports a need of 2*4 = 8, the very length the series
    has. *)
Example insufficient_message_reports_2m :
  len (weekly_series_app (filter_key (fridays 8) 1 1)) = 8
  /\ min_points 4 = 9
  /\ generate_forecast reference_fit (fridays 8) 1 1 30 4
     = failure (MsgInsufficient 8 8 4)
  /\ message_text (MsgInsufficient 8 8 4)
     = "Insufficient data after resampling. Have 8 weekly points; need at least 8 for the chosen seasonal_periods=4."%string.
Proof. repeat split; vm_compute; reflexivity. Qed.

(** ** The further properties *)

Lemma on_store_change_lists_departments_witness :
  combo_values (on_store_change int_of_decimal history
                  (mkCombo [1; 2] "2") (mkCombo [1] "1")) = [1]
  /\ on_store_change int_of_decimal history (mkCombo [1; 2] "")
       (mkCombo [1] "1") = mkCombo [1] "1"
  /\ (forall d,
         In d (combo_values (on_store_change int_of_decimal history
                               (mkCombo [1; 2] "2") (mkCombo [1] "1")))
         <-> exists r, In r history /\ Store r = 2 /\ Dept r = d).
Proof.
  pose proof (on_store_change_lists_departments int_of_decimal history
                (mkCombo [1; 2] "2") (mkCombo [1] "1")) as [H _].
  pose proof (on_store_change_lists_departments int_of_decimal history
                (mkCombo [1; 2] "") (mkCombo [1] "1")) as [_ H'].
  destruct (H 2) as (_ & Hin & _); [discriminate | reflexivity |].
  split; [vm_compute; reflexivity|]. split.
  - apply H'. left. reflexivity.
  - exact Hin.
Defined.

Lemma offered_department_has_data_witness :
  filter_key history 1 1 <> []
  /\ run_forecast int_of_decimal reference_fit history "1" (show 1) "4"
     = if len (weekly_series_sales (filter_key history 1 1)) <? 20 then
         showerror "Not enough data"
           "Need at least 20 data points for forecasting."
       else
         fit_and_plot reference_fit
           (weekly_series_sales (filter_key history 1 1)) 1 1 4.
Proof.
  apply (offered_department_has_data int_of_decimal reference_fit history
           (mkCombo [1; 2] "1") (mkCombo [] "") 1 1 "4" 4).
  - discriminate.
  - reflexivity.
  - vm_compute. now left.
  - reflexivity.
  - reflexivity.
  - lia.
Defined.

Lemma default_request_has_data_witness :
  combo_text (store_combo (build_window int_of_decimal history)) = "1"%string
  /\ combo_text (dept_combo (build_window int_of_decimal history))
     = "1"%string
  /\ filter_key history 1 1 <> [].
Proof.
  assert (H1 : history <> []) by discriminate.
  assert (H2 : int_of_decimal (show (hd 0 (store_ids history)))
               = Some (hd 0 (store_ids history)))
    by (vm_compute; reflexivity).
  assert (H3 : int_of_decimal
                 (show (hd 0 (combo_values
                                (dept_combo
                                   (build_window int_of_decimal history)))))
               = Some (hd 0 (combo_values
                               (dept_combo
                                  (build_window int_of_decimal history)))))
    by (vm_compute; reflexivity).
  assert (H4 : int_of_decimal "30" = Some 30) by reflexivity.
  destruct (default_request_has_data int_of_decimal reference_fit history
              H1 H2 H3 H4) as (_ & _ & E1 & E2 & Hkey & _).
  split; [|split].
  - rewrite E1. vm_compute. reflexivity.
  - rewrite E2. vm_compute. reflexivity.
  - intros E. apply Hkey. rewrite <- E. vm_compute. reflexivity.
Defined.

Lemma load_data_one_row_per_sale_witness :
  Permutation (map sale (load_data train_rows store_rows feature_rows))
    train_rows
  /\ length (load_data train_rows store_rows feature_rows)
     = length train_rows.
Proof.
  apply load_data_one_row_per_sale.
  - repeat constructor; cbv; intuition congruence.
  - repeat constructor; cbv; intuition congruence.
Defined.

Lemma weekly_series_sums_train_rows_witness :
  (exists ts fc df msg,
      generate_forecast reference_fit_int64
        (load_data (train_fridays_int64 104) store_rows feature_rows) 1 1 4 2
      = (Some ts, fc, df, msg)
      /\ forall w v, In (w, v) ts ->
                     v = train_week_total (train_fridays_int64 104) 1 1 w)
  /\ (exists ts fc,
         run_forecast int_of_decimal reference_fit_int64
           (load_data (train_fridays_int64 104) store_rows feature_rows)
           "1" "1" "4"
         = plot ts fc 1 1 4
         /\ forall w v, In (w, v) ts ->
                        v = train_week_total (train_fridays_int64 104) 1 1 w).
Proof.
  assert (Hf : NoDup (map feature_key feature_rows))
    by (repeat constructor; cbv; intuition congruence).
  assert (Hs : NoDup (map Stores.Store store_rows))
    by (repeat constructor; cbv; intuition congruence).
  destruct (weekly_series_sums_train_rows int_of_decimal reference_fit_int64
              (train_fridays_int64 104) store_rows feature_rows
              int64_exact Hf Hs)
    as [Happ Hsales].
  split.
  - run_to_value (generate_forecast reference_fit_int64
                    (load_data (train_fridays_int64 104) store_rows
                       feature_rows) 1 1 4 2) as r E.
    do 4 eexists. split; [exact E|].
    intros w v. exact (Happ _ _ _ _ _ _ _ _ w v E).
  - run_to_value (run_forecast int_of_decimal reference_fit_int64
                    (load_data (train_fridays_int64 104) store_rows
                       feature_rows) "1" "1" "4") as r E.
    do 2 eexists. split; [exact E|].
    intros w v. exact (Hsales _ _ _ _ _ _ _ _ w v E).
Defined.

Lemma weekly_series_length_is_span_witness :
  exists r1 r2,
    (In r1 sparse_rows /\ Store r1 = 1 /\ Dept r1 = 1)
    /\ (In r2 sparse_rows /\ Store r2 = 1 /\ Dept r2 = 1)
    /\ (forall r, In r sparse_rows -> Store r = 1 -> Dept r = 1 ->
                  Date r1 <= Date r <= Date r2)
    /\ len (weekly_series_sales (filter_key sparse_rows 1 1))
       = (week_end (Date r2) - week_end (Date r1)) / 7 + 1
    /\ len (weekly_series_app (filter_key sparse_rows 1 1))
       = (week_end (Date r2) - week_end (Date r1)) / 7 + 1.
Proof.
  destruct (weekly_series_length_is_span sparse_rows 1 1)
    as (r1 & r2 & H1 & H2 & Hb & Hsales & _ & _ & Happ);
    [vm_compute; discriminate|].
  exists r1, r2. split; [exact H1|]. split; [exact H2|].
  split; [exact Hb|]. split; [exact Hsales|].
  apply Happ. intros w v Hin. vm_compute in Hin.
  destruct Hin as [E|[E|[E|[E|[]]]]]; injection E as <- <-; reflexivity.
Defined.

Lemma empty_weeks_are_zero_witness :
  In (17, PrimFloat.zero) (weekly_series_app (filter_key sparse_rows 1 1))
  /\ In (17, PrimFloat.zero)
       (weekly_series_sales (filter_key sparse_rows 1 1)).
Proof.
  refine (empty_weeks_are_zero sparse_rows 1 1 17
            (sales_row 1 1 8 (float_of_Z 10))
            (sales_row 1 1 25 (float_of_Z 7)) _ _ _ _ _).
  - vm_compute. tauto.
  - vm_compute. tauto.
  - reflexivity.
  - vm_compute. split; discriminate.
  - intros r Hr. vm_compute in Hr.
    destruct Hr as [<-|[<-|[<-|[]]]]; vm_compute; discriminate.
Defined.

Lemma result_depends_on_key_rows_witness :
  generate_forecast reference_fit_int64 (rev history_int64) 1 1 4 2
  = generate_forecast reference_fit_int64 history_int64 1 1 4 2
  /\ run_forecast int_of_decimal reference_fit_int64 (rev history_int64)
       "1" "1" "4"
     = run_forecast int_of_decimal reference_fit_int64 history_int64
         "1" "1" "4".
Proof.
  destruct (result_depends_on_key_rows int_of_decimal reference_fit_int64
              (rev history_int64) history_int64 int64_exact) as (_ & _ & H).
  destruct (H (Permutation_sym (Permutation_rev history_int64)))
    as [Happ Hsales].
  split; [apply Happ | apply Hsales].
Defined.

Lemma main_logic_never_uses_none_witness :
  (exists msg,
      generate_forecast reference_fit history 3 1 4 2 = failure msg
      /\ main_logic reference_fit history true 3 1 4 2
         = error_page "Results for Store 3, Department 1" (message_text msg))
  /\ main_logic reference_fit history false 3 1 4 2 = idle.
Proof.
  destruct (main_logic_never_uses_none reference_fit history true 3 1 4 2)
    as (_ & _ & H).
  destruct (main_logic_never_uses_none reference_fit history false 3 1 4 2)
    as (_ & H' & _).
  split; [|now apply H'].
  destruct (H eq_refl) as [(msg & E & Em)|(ts & fc & E & _)].
  - exists msg. split; [exact E | exact Em].
  - exfalso. vm_compute in E. discriminate.
Defined.

Lemma input_errors_characterised_witness :
  (exists text,
      run_forecast int_of_decimal reference_fit history "1" "1" "-3"
      = showerror "Input error" text)
  /\ run_forecast int_of_decimal (fun _ _ => inl ""%string) [] "1" "1" "-3"
     = run_forecast int_of_decimal reference_fit history "1" "1" "-3".
Proof.
  pose proof (input_errors_characterised int_of_decimal reference_fit history
                "1" "1" "-3") as [Hiff Hsame].
  assert (Hinv : ("1" = "" \/ "1" = ""
                  \/ int_of_decimal "1" = None \/ int_of_decimal "1" = None
                  \/ int_of_decimal "-3" = None
                  \/ exists h, int_of_decimal "-3" = Some h /\ h <= 0)%string).
  { do 5 right. exists (-3). split; [reflexivity | lia]. }
  split; [apply Hiff, Hinv | apply Hsame, Hinv].
Defined.

Lemma file_row_order_is_irrelevant_witness :
  Permutation
    (load_data (rev (train_fridays_int64 104)) (rev store_rows)
       (rev feature_rows))
    (load_data (train_fridays_int64 104) store_rows feature_rows)
  /\ generate_forecast reference_fit_int64
       (load_data (rev (train_fridays_int64 104)) (rev store_rows)
          (rev feature_rows)) 1 1 4 2
     = generate_forecast reference_fit_int64
         (load_data (train_fridays_int64 104) store_rows feature_rows)
         1 1 4 2.
Proof.
  destruct (file_row_order_is_irrelevant int_of_decimal reference_fit_int64
              (rev (train_fridays_int64 104)) (train_fridays_int64 104)
              (rev store_rows) store_rows (rev feature_rows) feature_rows)
    as [Hp Hsame]; try apply Permutation_sym, Permutation_rev.
  split; [exact Hp|].
  destruct (Hsame int64_exact) as [Happ _]. apply Happ.
Defined.

Lemma int64_weekly_values_modulo_witness :
  exists ts fc df msg,
    generate_forecast reference_fit_int64 large_rows 1 1 4 2
    = (Some ts, fc, df, msg)
    /\ forall w v, In (w, v) ts ->
         signed v
         = wrap64 (fold_right Z.add 0
                     (map (fun r => signed (Weekly_Sales r))
                        (week_rows large_rows 1 1 w))).
Proof.
  destruct (int64_weekly_values_modulo int_of_decimal reference_fit_int64
              large_rows) as [Happ _].
  run_to_value (generate_forecast reference_fit_int64 large_rows 1 1 4 2)
    as r E.
  do 4 eexists. split; [exact E|].
  intros w v. exact (Happ _ _ _ _ _ _ _ _ w v E).
Defined.

Lemma row_order_irrelevant_for_distinct_dates_witness :
  generate_forecast reference_fit (rev (fridays 104)) 1 1 4 2
  = generate_forecast reference_fit (fridays 104) 1 1 4 2.
Proof.
  destruct (row_order_irrelevant_for_distinct_dates int_of_decimal
              reference_fit (rev (fridays 104)) (fridays 104)) as [Happ _].
  apply Happ.
  - apply filter_perm, Permutation_sym, Permutation_rev.
  - replace (map Date (filter_key (rev (fridays 104)) 1 1))
      with (unique (map Date (filter_key (rev (fridays 104)) 1 1)))
      by (vm_compute; reflexivity).
    apply unique_NoDup.
Defined.
